(** * ChromecastSessionManager: a shallow embedding and its contract

    The development follows [src/js/chromecast/ChromecastSessionManager.js].
    The class is an adapter between a Video.js player (the host) and the
    Cast Web Sender SDK (the global [cast], its [CastContext] singleton).
    Both collaborators are external: their queryable state is part of the
    world, and every call the class makes on them is appended to a call log,
    in program order.  Callbacks the class hands out ([player.ready],
    [promise.then], [player.on('dispose')]) are kept as data and run by
    separate operations, the way the event loop runs them later. *)

From Stdlib Require Import String List Bool Arith ZArith QArith Lia.
Import ListNotations.
Close Scope Q_scope.
Open Scope string_scope.
Open Scope list_scope.

(** ** JavaScript values *)

Definition ref := nat.

(** Numbers: the finite doubles are represented by rationals; [NaN] is kept
    apart because it is falsy and never equal to itself. *)
Inductive number :=
| NaN
| Num (q : Q).

Inductive value :=
| VUndefined
| VNull
| VBool (b : bool)
| VNum (n : number)
| VStr (s : string)
| VObj (r : ref).

(** ToBoolean of the language: [undefined], [null], [false], [0], [NaN] and
    the empty string are falsy, all the rest is truthy. *)
Definition ToBoolean (v : value) : bool :=
  match v with
  | VUndefined | VNull => false
  | VBool b => b
  | VNum NaN => false
  | VNum (Num q) => negb (Qnum q =? 0)%Z
  | VStr s => negb (String.eqb s "")
  | VObj _ => true
  end.

(** [a === b] *)
Definition strict_eq (a b : value) : bool :=
  match a, b with
  | VUndefined, VUndefined => true
  | VNull, VNull => true
  | VBool x, VBool y => Bool.eqb x y
  | VNum (Num x), VNum (Num y) => Qeq_bool x y
  | VStr x, VStr y => String.eqb x y
  | VObj x, VObj y => Nat.eqb x y
  | _, _ => false
  end.

(** [a || b] and [a && b] on operands already evaluated; both return one of
    their operands, not a boolean. *)
Definition js_or (a b : value) : value := if ToBoolean a then a else b.
Definition js_and (a b : value) : value := if ToBoolean a then b else a.
(** [!a] *)
Definition js_not (a : value) : value := VBool (negb (ToBoolean a)).

Definition of_ref (o : option ref) : value :=
  match o with
  | Some r => VObj r
  | None => VUndefined
  end.

(** ** The Cast SDK's enumerations

    [cast.framework.CastState], [cast.framework.SessionState] and
    [cast.framework.CastContextEventType] are string-valued tables of the
    SDK; every member's value is its own name. *)

Inductive CastState :=
| NO_DEVICES_AVAILABLE
| NOT_CONNECTED
| CONNECTING
| CONNECTED.

Inductive SessionState :=
| NO_SESSION
| SESSION_STARTING
| SESSION_STARTED
| SESSION_START_FAILED
| SESSION_ENDING
| SESSION_ENDED
| SESSION_RESUMED.

Inductive CastContextEventType :=
| CAST_STATE_CHANGED
| SESSION_STATE_CHANGED.

Definition CastState_value (s : CastState) : value :=
  VStr match s with
       | NO_DEVICES_AVAILABLE => "NO_DEVICES_AVAILABLE"
       | NOT_CONNECTED => "NOT_CONNECTED"
       | CONNECTING => "CONNECTING"
       | CONNECTED => "CONNECTED"
       end.

Definition SessionState_value (s : SessionState) : value :=
  VStr match s with
       | NO_SESSION => "NO_SESSION"
       | SESSION_STARTING => "SESSION_STARTING"
       | SESSION_STARTED => "SESSION_STARTED"
       | SESSION_START_FAILED => "SESSION_START_FAILED"
       | SESSION_ENDING => "SESSION_ENDING"
       | SESSION_ENDED => "SESSION_ENDED"
       | SESSION_RESUMED => "SESSION_RESUMED"
       end.

(** ** The world *)

Definition player_id := nat.

(** What the host player answers when asked: [currentSource()],
    [currentSources()], [currentTime()] and [paused()]. *)
Record Player := {
  currentSource : value;
  currentSources : list value;
  currentTime : value;
  paused : bool
}.

(** The media status of a session, [castSession.getMediaSession()]. *)
Record MediaStatus := {
  media : value;
  ms_currentTime : value;
  playerState : value
}.

(** A cast session; [getMediaSession()] is [null] when nothing is loaded. *)
Record CastSession := {
  getMediaSession : option MediaStatus
}.

(** An instance of the class: [this.player], and an identity that tells the
    bound listeners of one instance from those of another. *)
Record Instance := {
  player : player_id;
  inst_id : nat
}.

(** [this._sessionListener] and [this._castListener]. *)
Inductive Listener :=
| SessionListener (self : Instance)
| CastListener (self : Instance).

(** The closure passed to [player.ready] by [_reloadTech]; it captures
    [wasPlaying] and [currentTime]. *)
Record ReadyCallback := {
  wasPlaying : value;
  captured_time : value
}.

(** Calls made on the host player and on the SDK. *)
Inductive Call :=
| Trigger (p : player_id) (name : string)
| Src (p : player_id) (sources : list value)
| Ready (p : player_id)
| Play (p : player_id)
| Pause (p : player_id)
| SetCurrentTime (p : player_id) (t : value)
| On (p : player_id) (event : string)
| AddEventListener (t : CastContextEventType) (l : Listener)
| RemoveEventListener (t : CastContextEventType) (l : Listener)
| RequestSession
| NewRemotePlayer (r : ref)
| NewRemotePlayerController (r : ref) (remote : value).

(** [window.chrome] with its [cast] member. *)
Record Chrome := {
  chrome_obj : ref;
  chrome_cast : option ref
}.

(** The [window] members the class probes.  [window.cast] is also the
    global [cast] every other method goes through. *)
Record Window := {
  window_chrome : option Chrome;
  window_cast : option ref
}.

(** The static fields of the class. *)
Record Statics := {
  remotePlayer : value;
  remotePlayerController : value;
  hasConnected : bool
}.

(** [static remotePlayer; static remotePlayerController;
     static hasConnected = false;] *)
Definition class_init : Statics :=
  {| remotePlayer := VUndefined;
     remotePlayerController := VUndefined;
     hasConnected := false |}.

(** The cast context singleton: its states, its current session, the
    listeners registered on it and the session requests not yet settled
    (each remembers the instance whose [openCastMenu] attached handlers). *)
Record CastContext := {
  castState : CastState;
  sessionState : SessionState;
  currentSession : option CastSession;
  listeners : list (CastContextEventType * Listener);
  requests : list Instance
}.

(** The host side: the players, the callbacks waiting in [player.ready] and
    the handlers registered for ['dispose']. *)
Record Host := {
  players : player_id -> Player;
  readyQueue : list (player_id * ReadyCallback);
  disposeHooks : list (player_id * Instance)
}.

Record World := {
  window : Window;
  statics : Statics;
  context : CastContext;
  host : Host;
  next_ref : ref;
  calls : list Call
}.

Definition with_statics (s : Statics) (w : World) : World :=
  {| window := window w; statics := s; context := context w;
     host := host w; next_ref := next_ref w; calls := calls w |}.

Definition with_context (c : CastContext) (w : World) : World :=
  {| window := window w; statics := statics w; context := c;
     host := host w; next_ref := next_ref w; calls := calls w |}.

Definition with_host (h : Host) (w : World) : World :=
  {| window := window w; statics := statics w; context := context w;
     host := h; next_ref := next_ref w; calls := calls w |}.

Definition with_next_ref (n : ref) (w : World) : World :=
  {| window := window w; statics := statics w; context := context w;
     host := host w; next_ref := n; calls := calls w |}.

Definition with_calls (l : list Call) (w : World) : World :=
  {| window := window w; statics := statics w; context := context w;
     host := host w; next_ref := next_ref w; calls := l |}.

(** ** Computations: state and exceptions *)

Inductive error :=
| ReferenceError (name : string)
| TypeError (msg : string).

(** A computation ends normally with a value, or throws; both carry the
    world as it is at that point. *)
Inductive result (A : Type) :=
| Ok (a : A) (w : World)
| Throw (e : error) (w : World).
Arguments Ok {A} a w.
Arguments Throw {A} e w.

Definition M (A : Type) := World -> result A.

Definition ret {A} (a : A) : M A := fun w => Ok a w.

Definition bind {A B} (c : M A) (k : A -> M B) : M B :=
  fun w => match c w with
           | Ok a w' => k a w'
           | Throw e w' => Throw e w'
           end.

Definition throw {A} (e : error) : M A := fun w => Throw e w.
Definition gets {A} (f : World -> A) : M A := fun w => Ok (f w) w.
Definition modify (f : World -> World) : M unit := fun w => Ok tt (f w).

Declare Scope js_scope.
Delimit Scope js_scope with js.
Notation "x <- c ;; k" := (bind c (fun x => k))
  (at level 61, c at next level, right associativity) : js_scope.
Notation "c ;; k" := (bind c (fun _ => k))
  (at level 61, right associativity) : js_scope.
Open Scope js_scope.

Definition world_of {A} (r : result A) : World :=
  match r with
  | Ok _ w => w
  | Throw _ w => w
  end.

Definition throws {A} (r : result A) : bool :=
  match r with
  | Ok _ _ => false
  | Throw _ _ => true
  end.

(** A call on an external object: appended to the log. *)
Definition call (c : Call) : M unit :=
  modify (fun w => with_calls (calls w ++ [c]) w).

(** ** The collaborators' interfaces *)

(** *** The host player *)

Definition the_player (p : player_id) : M Player :=
  gets (fun w => players (host w) p).

(** [player.trigger(name)] *)
Definition trigger (p : player_id) (name : string) : M unit :=
  call (Trigger p name).

(** [player.ready(fn)]: the callback is queued until the player is ready. *)
Definition ready (p : player_id) (fn : ReadyCallback) : M unit :=
  call (Ready p);;
  modify (fun w =>
    with_host {| players := players (host w);
                 readyQueue := readyQueue (host w) ++ [(p, fn)];
                 disposeHooks := disposeHooks (host w) |} w).

(** [player.on('dispose', fn)] *)
Definition on_dispose (p : player_id) (self : Instance) : M unit :=
  call (On p "dispose");;
  modify (fun w =>
    with_host {| players := players (host w);
                 readyQueue := readyQueue (host w);
                 disposeHooks := disposeHooks (host w) ++ [(p, self)] |} w).

(** *** The SDK *)

(** Reading the global [cast]: a ReferenceError where the SDK is not
    loaded. *)
Definition cast_global : M ref :=
  fun w => match window_cast (window w) with
           | Some r => Ok r w
           | None => Throw (ReferenceError "cast") w
           end.

(** A member of one of the SDK's tables, such as
    [cast.framework.CastState.CONNECTED]. *)
Definition cast_const (v : value) : M value :=
  cast_global;; ret v.

(** [cast.framework.CastContext.getInstance()]; the singleton is the
    [context] of the world. *)
Definition getInstance : M unit :=
  cast_global;; ret tt.

Definition getCastState : M value :=
  gets (fun w => CastState_value (castState (context w))).

Definition getSessionState : M value :=
  gets (fun w => SessionState_value (sessionState (context w))).

Definition getCurrentSession : M (option CastSession) :=
  gets (fun w => currentSession (context w)).

Definition CastContextEventType_eqb (a b : CastContextEventType) : bool :=
  match a, b with
  | CAST_STATE_CHANGED, CAST_STATE_CHANGED => true
  | SESSION_STATE_CHANGED, SESSION_STATE_CHANGED => true
  | _, _ => false
  end.

Definition Instance_eqb (a b : Instance) : bool :=
  Nat.eqb (player a) (player b) && Nat.eqb (inst_id a) (inst_id b).

Definition Listener_eqb (a b : Listener) : bool :=
  match a, b with
  | SessionListener x, SessionListener y => Instance_eqb x y
  | CastListener x, CastListener y => Instance_eqb x y
  | _, _ => false
  end.

Definition with_listeners (l : list (CastContextEventType * Listener))
    (c : CastContext) : CastContext :=
  {| castState := castState c; sessionState := sessionState c;
     currentSession := currentSession c; listeners := l;
     requests := requests c |}.

Definition with_requests (l : list Instance) (c : CastContext) : CastContext :=
  {| castState := castState c; sessionState := sessionState c;
     currentSession := currentSession c; listeners := listeners c;
     requests := l |}.

Definition addEventListener (t : CastContextEventType) (l : Listener) : M unit :=
  call (AddEventListener t l);;
  modify (fun w =>
    with_context (with_listeners (listeners (context w) ++ [(t, l)]) (context w)) w).

Definition removeEventListener (t : CastContextEventType) (l : Listener) : M unit :=
  call (RemoveEventListener t l);;
  modify (fun w =>
    with_context
      (with_listeners
         (filter (fun e => negb (CastContextEventType_eqb (fst e) t
                                 && Listener_eqb (snd e) l))
                 (listeners (context w)))
         (context w)) w).

(** [requestSession().then(onSessionSuccess, noop)]: the request is issued
    and stays pending, with the handlers of [self] attached. *)
Definition requestSession_then (self : Instance) : M unit :=
  call RequestSession;;
  modify (fun w =>
    with_context (with_requests (requests (context w) ++ [self]) (context w)) w).

(** [new C(...)]: a fresh object. *)
Definition fresh : M ref :=
  fun w => Ok (next_ref w) (with_next_ref (S (next_ref w)) w).

(** ** The class *)

Definition set_hasConnected (b : bool) : M unit :=
  modify (fun w =>
    with_statics {| remotePlayer := remotePlayer (statics w);
                    remotePlayerController := remotePlayerController (statics w);
                    hasConnected := b |} w).

Definition set_remotePlayer (v : value) : M unit :=
  modify (fun w =>
    with_statics {| remotePlayer := v;
                    remotePlayerController := remotePlayerController (statics w);
                    hasConnected := hasConnected (statics w) |} w).

Definition set_remotePlayerController (v : value) : M unit :=
  modify (fun w =>
    with_statics {| remotePlayer := remotePlayer (statics w);
                    remotePlayerController := v;
                    hasConnected := hasConnected (statics w) |} w).

(** [getCastContext()] *)
Definition getCastContext : M unit := getInstance.

(** [_addCastContextEventListeners()] *)
Definition _addCastContextEventListeners (self : Instance) : M unit :=
  cast_global;;  (* CastContextEventType.SESSION_STATE_CHANGED *)
  cast_global;;  (* CastContextEventType.CAST_STATE_CHANGED *)
  getCastContext;; addEventListener SESSION_STATE_CHANGED (SessionListener self);;
  getCastContext;; addEventListener CAST_STATE_CHANGED (CastListener self).

(** [_removeCastContextEventListeners()] *)
Definition _removeCastContextEventListeners (self : Instance) : M unit :=
  cast_global;;
  cast_global;;
  getCastContext;; removeEventListener SESSION_STATE_CHANGED (SessionListener self);;
  getCastContext;; removeEventListener CAST_STATE_CHANGED (CastListener self).

(** The body of the function passed to [player.ready] in [_reloadTech]. *)
Definition ready_callback (p : player_id) (fn : ReadyCallback) : M unit :=
  (if ToBoolean (wasPlaying fn) then call (Play p) else call (Pause p));;
  call (SetCurrentTime p (js_or (captured_time fn) (VNum (Num 0%Q)))).

(** [_reloadTech(sessionCurrentTime, sessionPlaying)]; a parameter that is
    not passed is [undefined]. *)
Definition _reloadTech (self : Instance)
    (sessionCurrentTime sessionPlaying : value) : M unit :=
  let p := player self in
  h <- the_player p;;
  let currentTime := js_or sessionCurrentTime (currentTime h) in
  let wasPlaying := js_or sessionPlaying (js_not (VBool (paused h))) in
  let sources := currentSources h in
  call (Src p sources);;
  ready p {| wasPlaying := wasPlaying; captured_time := currentTime |}.

(** [_reloadTechWithSources(mediaStatus)] *)
Definition _reloadTechWithSources (self : Instance) (mediaStatus : MediaStatus)
    : M unit :=
  let currentTime := ms_currentTime mediaStatus in
  let isPlaying := VBool (strict_eq (playerState mediaStatus) (VStr "PLAYING")) in
  _reloadTech self currentTime isPlaying.

(** [_onSessionResumed()]; reading [getMediaSession] off a [null] session
    is a TypeError. *)
Definition _onSessionResumed (self : Instance) : M unit :=
  getInstance;;
  castSession <- getCurrentSession;;
  mediaStatus <- match castSession with
                 | Some s => ret (getMediaSession s)
                 | None => throw (TypeError "castSession is null")
                 end;;
  set_hasConnected true;;
  trigger (player self) "chromecastConnected";;
  match mediaStatus with
  | Some ms =>
      if ToBoolean (media ms)
      then _reloadTechWithSources self ms
      else _reloadTech self VUndefined VUndefined
  | None => _reloadTech self VUndefined VUndefined
  end.

(** The event object of a session-state change. *)
Record SessionStateEvent := {
  ev_sessionState : value
}.

(** [_onSessionStateChange(event)] *)
Definition _onSessionStateChange (self : Instance) (event : SessionStateEvent)
    : M unit :=
  ended <- cast_const (SessionState_value SESSION_ENDED);;
  if strict_eq (ev_sessionState event) ended then
    trigger (player self) "chromecastDisconnected";;
    _reloadTech self VUndefined VUndefined
  else
    resumed <- cast_const (SessionState_value SESSION_RESUMED);;
    if strict_eq (ev_sessionState event) resumed then
      _onSessionResumed self
    else ret tt.

(** [hasAvailableDevices(castState)] *)
Definition hasAvailableDevices (self : Instance) (castState : value) : M value :=
  castState <- (if ToBoolean castState then ret castState
                else getCastContext;; getCastState);;
  c1 <- cast_const (CastState_value NOT_CONNECTED);;
  if strict_eq castState c1 then ret (VBool true) else
  c2 <- cast_const (CastState_value CONNECTING);;
  if strict_eq castState c2 then ret (VBool true) else
  c3 <- cast_const (CastState_value CONNECTED);;
  ret (VBool (strict_eq castState c3)).

(** [_notifyPlayerOfDevicesAvailabilityChange(castState)] *)
Definition _notifyPlayerOfDevicesAvailabilityChange (self : Instance)
    (castState : value) : M unit :=
  b <- hasAvailableDevices self castState;;
  if ToBoolean b
  then trigger (player self) "chromecastDevicesAvailable"
  else trigger (player self) "chromecastDevicesUnavailable".

(** The event object of a cast-state change. *)
Record CastStateEvent := {
  ev_castState : value
}.

(** [_onCastStateChange(event)] *)
Definition _onCastStateChange (self : Instance) (event : CastStateEvent)
    : M unit :=
  _notifyPlayerOfDevicesAvailabilityChange self (ev_castState event).

(** The success handler built in [openCastMenu]. *)
Definition onSessionSuccess (self : Instance) : M unit :=
  set_hasConnected true;;
  trigger (player self) "chromecastConnected";;
  _reloadTech self VUndefined VUndefined.

(** The error handler of [openCastMenu]: [function() { /* noop */ }] *)
Definition noop : M unit := ret tt.

(** [openCastMenu()] *)
Definition openCastMenu (self : Instance) : M unit :=
  h <- the_player (player self);;
  if negb (ToBoolean (currentSource h)) then ret tt
  else getCastContext;; requestSession_then self.

(** [getRemotePlayer()] and [getRemotePlayerController()] *)
Definition getRemotePlayer (self : Instance) : M value :=
  gets (fun w => remotePlayer (statics w)).

Definition getRemotePlayerController (self : Instance) : M value :=
  gets (fun w => remotePlayerController (statics w)).

(** [static isChromecastAPIAvailable()]:
    [window.chrome && window.chrome.cast && window.cast].  Where
    [window.chrome] is missing the first operand is the result and
    [window.chrome.cast] is not read. *)
Definition isChromecastAPIAvailable : M value :=
  win <- gets window;;
  match window_chrome win with
  | None => ret VUndefined
  | Some chrome =>
      ret (js_and (js_and (VObj (chrome_obj chrome)) (of_ref (chrome_cast chrome)))
                  (of_ref (window_cast win)))
  end.

(** [static isChromecastConnected()] *)
Definition isChromecastConnected : M value :=
  a <- isChromecastAPIAvailable;;
  if ToBoolean a then
    getInstance;;
    s <- getCastState;;
    c <- cast_const (CastState_value CONNECTED);;
    let b := VBool (strict_eq s c) in
    if ToBoolean b then gets (fun w => VBool (hasConnected (statics w)))
    else ret b
  else ret a.

(** [constructor(player)] *)
Definition constructor (p : player_id) : M Instance :=
  id <- fresh;;
  let self := {| player := p; inst_id := id |} in
  _addCastContextEventListeners self;;
  on_dispose p self;;
  getCastContext;;
  s <- getCastState;;
  _notifyPlayerOfDevicesAvailabilityChange self s;;
  getCastContext;;
  ss <- getSessionState;;
  _onSessionStateChange self {| ev_sessionState := ss |};;
  rp <- gets (fun w => remotePlayer (statics w));;
  rp' <- (if ToBoolean rp then ret rp
          else cast_global;; r <- fresh;; call (NewRemotePlayer r);; ret (VObj r));;
  set_remotePlayer rp';;
  rc <- gets (fun w => remotePlayerController (statics w));;
  rc' <- (if ToBoolean rc then ret rc
          else cast_global;;
               arg <- gets (fun w => remotePlayer (statics w));;
               r <- fresh;; call (NewRemotePlayerController r arg);; ret (VObj r));;
  set_remotePlayerController rc';;
  ret self.

(** ** Callbacks run by the event loop *)

(** How the promise of [requestSession()] is settled. *)
Inductive Settlement :=
| Fulfilled
| Rejected (reason : value).

(** The state of the promise that [.then] returns, once its handler ran. *)
Inductive PromiseState :=
| Resolved
| RejectedWith (e : error).

(** [promise.then(onFulfilled, onRejected)] at settlement: the matching
    handler runs; an exception it throws rejects the derived promise and
    goes no further. *)
Definition then_ (s : Settlement) (onFulfilled onRejected : M unit)
    : M PromiseState :=
  fun w =>
    match (match s with
           | Fulfilled => onFulfilled
           | Rejected _ => onRejected
           end) w with
    | Ok _ w' => Ok Resolved w'
    | Throw e w' => Ok (RejectedWith e) w'
    end.

(** The oldest pending session request is settled. *)
Definition settleRequest (s : Settlement) : M (option PromiseState) :=
  pending <- gets (fun w => requests (context w));;
  match pending with
  | [] => ret None
  | self :: rest =>
      modify (fun w => with_context (with_requests rest (context w)) w);;
      st <- then_ s (onSessionSuccess self) noop;;
      ret (Some st)
  end.

Fixpoint run_ready (p : player_id) (q : list (player_id * ReadyCallback))
    : M unit :=
  match q with
  | [] => ret tt
  | (p', fn) :: q' =>
      (if Nat.eqb p' p then ready_callback p fn else ret tt);;
      run_ready p q'
  end.

(** The player [p] becomes ready: its queued callbacks run in order. *)
Definition playerReady (p : player_id) : M unit :=
  q <- gets (fun w => readyQueue (host w));;
  modify (fun w =>
    with_host {| players := players (host w);
                 readyQueue := filter (fun e => negb (Nat.eqb (fst e) p)) q;
                 disposeHooks := disposeHooks (host w) |} w);;
  run_ready p q.

Fixpoint run_hooks (p : player_id) (hs : list (player_id * Instance))
    : M unit :=
  match hs with
  | [] => ret tt
  | (p', self) :: hs' =>
      (if Nat.eqb p' p then _removeCastContextEventListeners self else ret tt);;
      run_hooks p hs'
  end.

(** The player [p] is disposed: the handlers registered for ['dispose']
    run. *)
Definition playerDispose (p : player_id) : M unit :=
  hs <- gets (fun w => disposeHooks (host w));;
  run_hooks p hs.

(** What the collaborators may change on their own between two operations:
    the probed [window] members, the states and the session of the cast
    context, and the answers of the players. *)
Record Environment := {
  env_window : Window;
  env_castState : CastState;
  env_sessionState : SessionState;
  env_currentSession : option CastSession;
  env_players : player_id -> Player
}.

Definition external (e : Environment) : M unit :=
  modify (fun w =>
    {| window := env_window e;
       statics := statics w;
       context := {| castState := env_castState e;
                     sessionState := env_sessionState e;
                     currentSession := env_currentSession e;
                     listeners := listeners (context w);
                     requests := requests (context w) |};
       host := {| players := env_players e;
                  readyQueue := readyQueue (host w);
                  disposeHooks := disposeHooks (host w) |};
       next_ref := next_ref w;
       calls := calls w |}).

(** ** The operations of the component *)

Inductive Op :=
| New (p : player_id)
| OnSessionStateChange (self : Instance) (event : SessionStateEvent)
| OnCastStateChange (self : Instance) (event : CastStateEvent)
| HasAvailableDevices (self : Instance) (castState : value)
| OpenCastMenu (self : Instance)
| GetRemotePlayer (self : Instance)
| GetRemotePlayerController (self : Instance)
| IsChromecastAPIAvailable
| IsChromecastConnected
| SettleRequest (s : Settlement)
| PlayerReady (p : player_id)
| PlayerDispose (p : player_id)
| External (e : Environment).

Definition run (o : Op) : M unit :=
  match o with
  | New p => constructor p;; ret tt
  | OnSessionStateChange self event => _onSessionStateChange self event
  | OnCastStateChange self event => _onCastStateChange self event
  | HasAvailableDevices self castState => hasAvailableDevices self castState;; ret tt
  | OpenCastMenu self => openCastMenu self
  | GetRemotePlayer self => getRemotePlayer self;; ret tt
  | GetRemotePlayerController self => getRemotePlayerController self;; ret tt
  | IsChromecastAPIAvailable => isChromecastAPIAvailable;; ret tt
  | IsChromecastConnected => isChromecastConnected;; ret tt
  | SettleRequest s => settleRequest s;; ret tt
  | PlayerReady p => playerReady p
  | PlayerDispose p => playerDispose p
  | External e => external e
  end.

(** Operations run one after the other, each a task of its own: an
    exception ends the task it is thrown in, not the ones after it. *)
Fixpoint run_all (os : list Op) (w : World) : World :=
  match os with
  | [] => w
  | o :: os' => run_all os' (world_of (run o w))
  end.

(** The world when the class has just been loaded. *)
Definition initial (e : Environment) : World :=
  {| window := env_window e;
     statics := class_init;
     context := {| castState := env_castState e;
                   sessionState := env_sessionState e;
                   currentSession := env_currentSession e;
                   listeners := [];
                   requests := [] |};
     host := {| players := env_players e; readyQueue := []; disposeHooks := [] |};
     next_ref := 0;
     calls := [] |}.

(** ** Notions used in the statements *)

(** The SDK is loaded: the global [cast] is defined. *)
Definition loaded (w : World) : Prop := exists r, window_cast (window w) = Some r.

(** The call triggers the event [name] on the player [p]. *)
Definition is_trigger (p : player_id) (name : string) (c : Call) : bool :=
  match c with
  | Trigger p' name' => Nat.eqb p' p && String.eqb name' name
  | _ => false
  end.

(** How many times the event [name] was triggered on the player [p]. *)
Definition triggered (p : player_id) (name : string) (l : list Call) : nat :=
  length (filter (is_trigger p name) l).

(** The world once a connect has been recorded: the flag is set and
    ['chromecastConnected'] has been triggered. *)
Definition connected (self : Instance) (w : World) : World :=
  with_calls (calls w ++ [Trigger (player self) "chromecastConnected"])
    (with_statics {| remotePlayer := remotePlayer (statics w);
                     remotePlayerController := remotePlayerController (statics w);
                     hasConnected := true |} w).

(** The event the context sends when its session state becomes [s]. *)
Definition session_event (s : SessionState) : SessionStateEvent :=
  {| ev_sessionState := SessionState_value s |}.

(** The event that tells the player whether there are devices. *)
Definition availability_event (b : bool) : string :=
  if b then "chromecastDevicesAvailable" else "chromecastDevicesUnavailable".

(** The states in which there are devices to cast to. *)
Definition devices_in (s : CastState) : bool :=
  match s with
  | NO_DEVICES_AVAILABLE => false
  | NOT_CONNECTED | CONNECTING | CONNECTED => true
  end.

(** A call that triggers one of the two availability events, on any
    player. *)
Definition is_availability (c : Call) : bool :=
  match c with
  | Trigger _ name =>
      String.eqb name "chromecastDevicesAvailable"
      || String.eqb name "chromecastDevicesUnavailable"
  | _ => false
  end.

(** The world with the oldest session request taken off the pending ones. *)
Definition settled (rest : list Instance) (w : World) : World :=
  with_context (with_requests rest (context w)) w.

(** All of [window.chrome], [window.chrome.cast] and [window.cast] exist. *)
Definition api_present (w : World) : Prop :=
  (exists chrome c, window_chrome (window w) = Some chrome /\
                    chrome_cast chrome = Some c) /\
  loaded w.

(** The connection flag, [ChromecastSessionManager.hasConnected]. *)
Definition flag (w : World) : bool := hasConnected (statics w).

(** What [_onSessionResumed] comes to where the SDK is loaded. *)
Definition resumed (self : Instance) (w : World) : result unit :=
  match currentSession (context w) with
  | None => Throw (TypeError "castSession is null") w
  | Some session =>
      match getMediaSession session with
      | Some ms =>
          if ToBoolean (media ms)
          then _reloadTech self (ms_currentTime ms)
                 (VBool (strict_eq (playerState ms) (VStr "PLAYING")))
                 (connected self w)
          else _reloadTech self VUndefined VUndefined (connected self w)
      | None => _reloadTech self VUndefined VUndefined (connected self w)
      end
  end.

(** The last two statements of the constructor: the static handles are
    created unless they exist already. *)
Definition acquire_handles : M unit :=
  rp <- gets (fun w => remotePlayer (statics w));;
  rp' <- (if ToBoolean rp then ret rp
          else cast_global;; r <- fresh;; call (NewRemotePlayer r);; ret (VObj r));;
  set_remotePlayer rp';;
  rc <- gets (fun w => remotePlayerController (statics w));;
  rc' <- (if ToBoolean rc then ret rc
          else cast_global;;
               arg <- gets (fun w => remotePlayer (statics w));;
               r <- fresh;; call (NewRemotePlayerController r arg);; ret (VObj r));;
  set_remotePlayerController rc'.

(** The first statements of the constructor, up to the availability
    event. *)
Definition announce (self : Instance) : M unit :=
  _addCastContextEventListeners self;;
  on_dispose (player self) self;;
  getCastContext;;
  s <- getCastState;;
  _notifyPlayerOfDevicesAvailabilityChange self s.

(** The world after them, for the instance allocated at [next_ref w]. *)
Definition announced (self : Instance) (w : World) : World :=
  world_of (announce self (with_next_ref (S (next_ref w)) w)).

(** The operation processes SESSION_RESUMED: the handler is given that
    state, or the constructor finds it as the current session state. *)
Definition resumes (o : Op) (w : World) : Prop :=
  match o with
  | OnSessionStateChange _ event =>
      ev_sessionState event = SessionState_value SESSION_RESUMED
  | New _ => sessionState (context w) = SESSION_RESUMED
  | _ => False
  end.

(** The operation is one that records a connect: it processes
    SESSION_RESUMED, or it fulfils a pending session request. *)
Definition connects (o : Op) (w : World) : Prop :=
  resumes o w \/ (o = SettleRequest Fulfilled /\ requests (context w) <> []).

(** The two listeners of [self] are not registered. *)
Definition unregistered (self : Instance)
    (l : list (CastContextEventType * Listener)) : Prop :=
  ~ In (SESSION_STATE_CHANGED, SessionListener self) l /\
  ~ In (CAST_STATE_CHANGED, CastListener self) l.

(** ** Notions used in the further properties *)

(** The calls of a reload: [src] with the current sources, then [ready]. *)
Definition reload_calls (p : player_id) (w : World) : list Call :=
  [Src p (currentSources (players (host w) p)); Ready p].

(** The calls the session-state handler makes for an event. *)
Definition handled (self : Instance) (event : SessionStateEvent) (w : World)
    : list Call :=
  match window_cast (window w) with
  | None => []
  | Some _ =>
      if strict_eq (ev_sessionState event) (SessionState_value SESSION_ENDED)
      then Trigger (player self) "chromecastDisconnected"
           :: reload_calls (player self) w
      else if strict_eq (ev_sessionState event) (SessionState_value SESSION_RESUMED)
      then match currentSession (context w) with
           | Some _ => Trigger (player self) "chromecastConnected"
                       :: reload_calls (player self) w
           | None => []
           end
      else []
  end.

(** The event [name] is triggered, on any player. *)
Definition is_event (name : string) (c : Call) : bool :=
  match c with
  | Trigger _ name' => String.eqb name' name
  | _ => false
  end.

Definition events (name : string) (l : list Call) : nat :=
  length (filter (is_event name) l).

(** A playback command on a player: [play()], [pause()] or a seek. *)
Definition is_command (c : Call) : bool :=
  match c with
  | Play _ | Pause _ | SetCurrentTime _ _ => true
  | _ => false
  end.

(** One of the two remote handles is created. *)
Definition is_new (c : Call) : bool :=
  match c with
  | NewRemotePlayer _ | NewRemotePlayerController _ _ => true
  | _ => false
  end.

Definition is_src (c : Call) : bool :=
  match c with Src _ _ => true | _ => false end.

Definition is_ready (c : Call) : bool :=
  match c with Ready _ => true | _ => false end.

Definition is_remove (c : Call) : bool :=
  match c with RemoveEventListener _ _ => true | _ => false end.

(** The global [cast] is defined, as a boolean. *)
Definition loaded_b (w : World) : bool :=
  match window_cast (window w) with
  | Some _ => true
  | None => false
  end.

(** There is a current session. *)
Definition has_session (w : World) : bool :=
  match currentSession (context w) with
  | Some _ => true
  | None => false
  end.

Definition SessionState_eqb (a b : SessionState) : bool :=
  strict_eq (SessionState_value a) (SessionState_value b).

(** The operation records a connect: SESSION_RESUMED is processed with the
    SDK loaded and a current session, or the oldest pending session
    request is fulfilled. *)
Definition connects_b (o : Op) (w : World) : bool :=
  match o with
  | OnSessionStateChange _ event =>
      loaded_b w
      && strict_eq (ev_sessionState event) (SessionState_value SESSION_RESUMED)
      && has_session w
  | New _ =>
      loaded_b w
      && SessionState_eqb (sessionState (context w)) SESSION_RESUMED
      && has_session w
  | SettleRequest Fulfilled =>
      match requests (context w) with
      | [] => false
      | _ :: _ => true
      end
  | _ => false
  end.

(** The operation processes SESSION_ENDED with the SDK loaded. *)
Definition ends_b (o : Op) (w : World) : bool :=
  match o with
  | OnSessionStateChange _ event =>
      loaded_b w
      && strict_eq (ev_sessionState event) (SessionState_value SESSION_ENDED)
  | New _ =>
      loaded_b w
      && SessionState_eqb (sessionState (context w)) SESSION_ENDED
  | _ => false
  end.

(** The calls an operation adds to the log. *)
Definition delta (o : Op) (w : World) (l : list Call) : Prop :=
  match o with
  | New p =>
      let self := {| player := p; inst_id := next_ref w |} in
      match window_cast (window w) with
      | None => l = []
      | Some _ =>
          exists created,
            l = [AddEventListener SESSION_STATE_CHANGED (SessionListener self);
                 AddEventListener CAST_STATE_CHANGED (CastListener self);
                 On p "dispose";
                 Trigger p (availability_event (devices_in (castState (context w))))]
                ++ handled self (session_event (sessionState (context w))) w
                ++ created
            /\ forallb is_new created = true
      end
  | OnSessionStateChange self event => l = handled self event w
  | OnCastStateChange self _ =>
      match window_cast (window w) with
      | None => l = []
      | Some _ => exists b, l = [Trigger (player self) (availability_event b)]
      end
  | OpenCastMenu _ => l = [] \/ l = [RequestSession]
  | SettleRequest s =>
      match s, requests (context w) with
      | Fulfilled, self :: _ =>
          l = Trigger (player self) "chromecastConnected"
              :: reload_calls (player self) w
      | _, _ => l = []
      end
  | PlayerReady _ => forallb is_command l = true
  | PlayerDispose _ => forallb is_remove l = true
  | _ => l = []
  end.

(** The instance a listener is bound to. *)
Definition listener_instance (l : Listener) : Instance :=
  match l with
  | SessionListener s | CastListener s => s
  end.

(** The registry is in order: every listener registered on the cast
    context is the session listener of an instance under
    SESSION_STATE_CHANGED or its cast listener under CAST_STATE_CHANGED,
    that instance has a ['dispose'] handler on its own player, and every
    ['dispose'] handler sits on the player of its instance. *)
Definition well_registered (w : World) : Prop :=
  (forall t l, In (t, l) (listeners (context w)) ->
     ((t, l) = (SESSION_STATE_CHANGED, SessionListener (listener_instance l)) \/
      (t, l) = (CAST_STATE_CHANGED, CastListener (listener_instance l)))
     /\ In (player (listener_instance l), listener_instance l)
           (disposeHooks (host w)))
  /\ (forall q s, In (q, s) (disposeHooks (host w)) -> q = player s).

(** ** Concrete worlds used in the examples *)

Definition a_source : value := VObj 100.

Definition local_player : Player :=
  {| currentSource := a_source;
     currentSources := [a_source];
     currentTime := VNum (Num 7%Q);
     paused := true |}.

Definition sdk_window : Window :=
  {| window_chrome := Some {| chrome_obj := 1; chrome_cast := Some 2 |};
     window_cast := Some 3 |}.

Definition env_of (c : CastState) (s : SessionState) (cs : option CastSession)
    (pl : Player) : Environment :=
  {| env_window := sdk_window;
     env_castState := c;
     env_sessionState := s;
     env_currentSession := cs;
     env_players := fun _ => pl |}.

Definition me : Instance := {| player := 0; inst_id := 10 |}.

Definition ended_world : World :=
  initial (env_of NOT_CONNECTED SESSION_ENDED None local_player).

Definition playing_at_42 : MediaStatus :=
  {| media := VObj 50;
     ms_currentTime := VNum (Num 42%Q);
     playerState := VStr "PLAYING" |}.

Definition resumed_world : World :=
  initial (env_of CONNECTED SESSION_RESUMED
                  (Some {| getMediaSession := Some playing_at_42 |})
                  local_player).

Definition no_devices_world : World :=
  initial (env_of NO_DEVICES_AVAILABLE NO_SESSION None local_player).

Definition no_source_player : Player :=
  {| currentSource := VUndefined;
     currentSources := [];
     currentTime := VNum (Num 0%Q);
     paused := true |}.

Definition no_source_world : World :=
  initial (env_of NOT_CONNECTED NO_SESSION None no_source_player).

Definition idle_world : World :=
  initial (env_of NOT_CONNECTED NO_SESSION None local_player).

Definition requested_world : World :=
  world_of (openCastMenu me idle_world).

(** A session started by another tab: the state is CONNECTED, the flag has
    never been set. *)
Definition foreign_session_world : World :=
  initial (env_of CONNECTED SESSION_STARTED
                  (Some {| getMediaSession := None |}) local_player).

Definition no_api_world : World :=
  initial {| env_window := {| window_chrome := None; window_cast := None |};
             env_castState := NO_DEVICES_AVAILABLE;
             env_sessionState := NO_SESSION;
             env_currentSession := None;
             env_players := fun _ => local_player |}.

Definition autoplaying_player : Player :=
  {| currentSource := a_source;
     currentSources := [a_source];
     currentTime := VNum (Num 30%Q);
     paused := false |}.

Definition autoplaying_world : World :=
  initial (env_of CONNECTED SESSION_RESUMED
                  (Some {| getMediaSession := None |}) autoplaying_player).

(** A session resumed while the receiver is paused at the start of the
    media and the local player is playing. *)
Definition paused_at_0 : MediaStatus :=
  {| media := VObj 50;
     ms_currentTime := VNum (Num 0%Q);
     playerState := VStr "PAUSED" |}.

Definition paused_session_world : World :=
  initial (env_of CONNECTED SESSION_RESUMED
                  (Some {| getMediaSession := Some paused_at_0 |})
                  autoplaying_player).

Definition another_environment : Environment :=
  env_of NO_DEVICES_AVAILABLE SESSION_ENDED None no_source_player.

(** SESSION_RESUMED with no current session. *)
Definition orphan_world : World :=
  initial (env_of CONNECTED SESSION_RESUMED None local_player).

(** A Video.js player with no source loaded: [currentSource()] answers an
    empty object, [currentSources()] an empty array. *)
Definition videojs_empty_player : Player :=
  {| currentSource := VObj 101;
     currentSources := [];
     currentTime := VNum (Num 0%Q);
     paused := true |}.

Definition videojs_empty_world : World :=
  initial (env_of NOT_CONNECTED NO_SESSION None videojs_empty_player).

(** Two instances, on two players. *)
Definition two_players_world : World :=
  run_all [New 0; New 1] idle_world.

(** The local session has ended and a session started elsewhere shows as
    CONNECTED. *)
Definition foreign_environment : Environment :=
  env_of CONNECTED SESSION_STARTED (Some {| getMediaSession := None |})
         local_player.

(** ** Basic facts *)

Lemma strict_eq_str (v : value) (s : string) :
  strict_eq v (VStr s) = true <-> v = VStr s.
Proof.
  destruct v as [| | b | [|q] | s' | r]; simpl; split; intros H;
    try discriminate; try (inversion H; subst; apply String.eqb_refl).
  apply String.eqb_eq in H. now subst.
Qed.

Lemma strict_eq_str_false (v : value) (s : string) :
  v <> VStr s -> strict_eq v (VStr s) = false.
Proof.
  intros H. destruct (strict_eq v (VStr s)) eqn:E; [|reflexivity].
  apply strict_eq_str in E. contradiction.
Qed.

Lemma SessionState_value_inj (s s' : SessionState) :
  SessionState_value s = SessionState_value s' -> s = s'.
Proof. destruct s, s'; (reflexivity || discriminate). Qed.

Lemma ToBoolean_CastState_value (s : CastState) :
  ToBoolean (CastState_value s) = true.
Proof. now destruct s. Qed.

Lemma triggered_app (p : player_id) (name : string) (l l' : list Call) :
  triggered p name (l ++ l') = triggered p name l + triggered p name l'.
Proof. unfold triggered. now rewrite filter_app, length_app. Qed.

(** Symbolic execution of a method body in a world where [cast] is
    defined, [H : window_cast (window w) = Some r]: the monad and the
    collaborators' primitives are unfolded, the projections of updated
    records are reduced, and [H] resolves each read of the global. *)
Ltac exec_with H :=
  repeat (cbv beta iota zeta
              delta [bind ret gets modify call throw cast_const getInstance
                     getCastContext cast_global trigger ready on_dispose
                     addEventListener removeEventListener requestSession_then
                     fresh the_player set_hasConnected set_remotePlayer
                     set_remotePlayerController getCastState getSessionState
                     getCurrentSession CastState_value SessionState_value
                     noop then_];
          cbn [window statics context host next_ref calls
               with_calls with_statics with_context with_host with_next_ref
               with_listeners with_requests
               window_cast window_chrome chrome_cast chrome_obj
               remotePlayer remotePlayerController hasConnected
               castState sessionState currentSession listeners requests
               players readyQueue disposeHooks
               ev_sessionState ev_castState player inst_id
               wasPlaying captured_time world_of throws negb andb orb];
          try rewrite H;
          repeat match goal with
                 | |- context [strict_eq ?a ?b] =>
                     let v := eval vm_compute in (strict_eq a b) in
                     match v with
                     | true => change (strict_eq a b) with true
                     | false => change (strict_eq a b) with false
                     end
                 | |- context [ToBoolean ?a] =>
                     let v := eval vm_compute in (ToBoolean a) in
                     match v with
                     | true => change (ToBoolean a) with true
                     | false => change (ToBoolean a) with false
                     end
                 end).

Ltac exec := exec_with I.

(** Case analysis on everything a method body branches on. *)
Ltac branch :=
  match goal with
  | |- context [match getMediaSession ?s with _ => _ end] =>
      destruct (getMediaSession s) as [?ms|]
  | |- context [if ToBoolean ?v then _ else _] =>
      destruct (ToBoolean v) eqn:?
  | |- context [match ?o with Some _ => _ | None => _ end] =>
      destruct o eqn:?
  end.

(** ** Reloading the tech *)

(** [_reloadTech] calls nothing of the SDK: it never throws, and what it
    does is the same whatever the world. *)
Lemma _reloadTech_Ok (self : Instance) (t pl : value) (w : World) :
  _reloadTech self t pl w =
  Ok tt
     (with_host
        {| players := players (host w);
           readyQueue :=
             readyQueue (host w) ++
             [(player self,
               {| wasPlaying :=
                    js_or pl (js_not (VBool (paused (players (host w) (player self)))));
                  captured_time :=
                    js_or t (currentTime (players (host w) (player self))) |})];
           disposeHooks := disposeHooks (host w) |}
        (with_calls
           (calls w ++
            [Src (player self) (currentSources (players (host w) (player self)))] ++
            [Ready (player self)]) w)).
Proof.
  unfold _reloadTech. exec. now rewrite <- app_assoc.
Qed.

(** X4: what [_reloadTech] captures: an explicit parameter that is truthy wins,
    any other (not passed, or falsy: time [0], playing [false]) gives way
    to the host's own time and play state; the sources are re-applied with
    [src]; once the player is ready it is played or paused as captured and
    sought to the captured time, [0] when that is falsy. *)
Lemma _reloadTech_captures (self : Instance) (t pl : value) (w : World) :
  let p := player self in
  let h := players (host w) p in
  let fn := {| wasPlaying := if ToBoolean pl then pl else VBool (negb (paused h));
               captured_time := if ToBoolean t then t else currentTime h |} in
  let w' := world_of (_reloadTech self t pl w) in
  throws (_reloadTech self t pl w) = false
  /\ calls w' = calls w ++ [Src p (currentSources h); Ready p]
  /\ readyQueue (host w') = readyQueue (host w) ++ [(p, fn)]
  /\ forall w2,
       ready_callback p fn w2 =
       Ok tt (with_calls
                (calls w2 ++
                 [if ToBoolean (wasPlaying fn) then Play p else Pause p;
                  SetCurrentTime p
                    (if ToBoolean (captured_time fn) then captured_time fn
                     else VNum (Num 0%Q))]) w2).
Proof.
  intros p h fn w'. subst w'. rewrite _reloadTech_Ok. exec.
  repeat split.
  intros w2. unfold ready_callback. exec. unfold js_or.
  destruct (ToBoolean (wasPlaying fn)); exec; now rewrite <- app_assoc.
Qed.

(** C2: a resume time of [0] and a playing flag of [false], passed
    explicitly, are not what is captured: with the host at 30 seconds and
    playing, the reload captures time 30 and playing, and once the player
    is ready it is played and sought to 30.  A session resumed while the
    receiver is paused at time 0 reaches the reload that way. *)
Theorem _reloadTech_explicit_falsy_parameters_lost :
  readyQueue (host (world_of
    (_reloadTech me (VNum (Num 0%Q)) (VBool false) autoplaying_world))) =
    [(0, {| wasPlaying := VBool true; captured_time := VNum (Num 30%Q) |})]
  /\ calls (run_all [PlayerReady 0]
       (world_of (_reloadTech me (VNum (Num 0%Q)) (VBool false) autoplaying_world))) =
     [Src 0 [a_source]; Ready 0; Play 0; SetCurrentTime 0 (VNum (Num 30%Q))]
  /\ calls (run_all [OnSessionStateChange me (session_event SESSION_RESUMED);
                     PlayerReady 0] paused_session_world) =
     [Trigger 0 "chromecastConnected"; Src 0 [a_source]; Ready 0;
      Play 0; SetCurrentTime 0 (VNum (Num 30%Q))].
Proof. repeat split; reflexivity. Qed.

(** ** Session-state events *)

Lemma _onSessionResumed_loaded (self : Instance) (w : World) :
  loaded w -> _onSessionResumed self w = resumed self w.
Proof.
  intros [c H]. unfold _onSessionResumed, resumed. exec_with H.
  destruct (currentSession (context w)) as [session|]; exec_with H;
    [|reflexivity].
  unfold connected.
  destruct (getMediaSession session) as [ms|]; [|reflexivity].
  destruct (ToBoolean (media ms)); reflexivity.
Qed.

Lemma _onSessionStateChange_loaded
    (self : Instance) (event : SessionStateEvent) (w : World) :
  loaded w ->
  _onSessionStateChange self event w =
  if strict_eq (ev_sessionState event) (SessionState_value SESSION_ENDED)
  then _reloadTech self VUndefined VUndefined
         (with_calls (calls w ++ [Trigger (player self) "chromecastDisconnected"]) w)
  else if strict_eq (ev_sessionState event) (SessionState_value SESSION_RESUMED)
       then resumed self w
       else Ok tt w.
Proof.
  intros L. rewrite <- _onSessionResumed_loaded by exact L.
  destruct L as [c H]. unfold _onSessionStateChange. exec_with H.
  destruct (strict_eq (ev_sessionState event) (VStr "SESSION_ENDED"));
    exec_with H; [reflexivity|].
  destruct (strict_eq (ev_sessionState event) (VStr "SESSION_RESUMED"));
    reflexivity.
Qed.

Lemma _onSessionStateChange_unloaded
    (self : Instance) (event : SessionStateEvent) (w : World) :
  window_cast (window w) = None ->
  _onSessionStateChange self event w = Throw (ReferenceError "cast") w.
Proof. intros H. unfold _onSessionStateChange. exec_with H. reflexivity. Qed.

Lemma resumed_throws (self : Instance) (w : World) :
  throws (resumed self w) = true <-> currentSession (context w) = None.
Proof.
  unfold resumed.
  destruct (currentSession (context w)) as [session|]; [|now split].
  split; [|discriminate].
  destruct (getMediaSession session) as [ms|];
    [destruct (ToBoolean (media ms))|]; now rewrite _reloadTech_Ok.
Qed.

Lemma resumed_flag (self : Instance) (w : World) :
  flag (world_of (resumed self w)) =
  match currentSession (context w) with
  | Some _ => true
  | None => flag w
  end.
Proof.
  unfold resumed.
  destruct (currentSession (context w)) as [session|]; [|reflexivity].
  destruct (getMediaSession session) as [ms|];
    [destruct (ToBoolean (media ms))|]; now rewrite _reloadTech_Ok.
Qed.

Lemma _onSessionStateChange_window
    (self : Instance) (event : SessionStateEvent) (w : World) :
  window (world_of (_onSessionStateChange self event w)) = window w.
Proof.
  destruct (window_cast (window w)) eqn:H.
  - rewrite _onSessionStateChange_loaded by (now exists r).
    destruct (strict_eq _ _); [now rewrite _reloadTech_Ok|].
    destruct (strict_eq _ _); [|reflexivity].
    unfold resumed.
    destruct (currentSession (context w)) as [session|]; [|reflexivity].
    destruct (getMediaSession session) as [ms|];
      [destruct (ToBoolean (media ms))|]; now rewrite _reloadTech_Ok.
  - now rewrite _onSessionStateChange_unloaded.
Qed.

Lemma _onSessionStateChange_flag
    (self : Instance) (event : SessionStateEvent) (w : World) :
  flag (world_of (_onSessionStateChange self event w)) = flag w
  \/ (flag (world_of (_onSessionStateChange self event w)) = true /\
      ev_sessionState event = SessionState_value SESSION_RESUMED).
Proof.
  destruct (window_cast (window w)) eqn:H.
  - rewrite _onSessionStateChange_loaded by (now exists r).
    destruct (strict_eq _ _); [left; now rewrite _reloadTech_Ok|].
    destruct (strict_eq _ _) eqn:E; [|now left].
    apply strict_eq_str in E. rewrite resumed_flag.
    destruct (currentSession (context w)); auto.
  - rewrite _onSessionStateChange_unloaded by exact H. now left.
Qed.

Lemma _onSessionStateChange_throws
    (self : Instance) (event : SessionStateEvent) (w : World) :
  loaded w ->
  throws (_onSessionStateChange self event w) = true <->
  ev_sessionState event = SessionState_value SESSION_RESUMED /\
  currentSession (context w) = None.
Proof.
  intros L. rewrite _onSessionStateChange_loaded by exact L.
  destruct (strict_eq _ (SessionState_value SESSION_ENDED)) eqn:E1.
  { apply strict_eq_str in E1. rewrite _reloadTech_Ok, E1.
    split; [discriminate | intros [E _]; discriminate]. }
  destruct (strict_eq _ (SessionState_value SESSION_RESUMED)) eqn:E2.
  - apply strict_eq_str in E2. rewrite resumed_throws. tauto.
  - split; [discriminate|]. intros [E _]. rewrite E in E2. discriminate.
Qed.

(** The calls of the session-state handler extend the log, and none of
    them triggers an availability event. *)
Lemma _onSessionStateChange_calls
    (self : Instance) (event : SessionStateEvent) (w : World) :
  exists l,
    calls (world_of (_onSessionStateChange self event w)) = calls w ++ l /\
    filter is_availability l = [].
Proof.
  destruct (window_cast (window w)) eqn:H.
  - rewrite _onSessionStateChange_loaded by (now exists r).
    destruct (strict_eq _ _).
    { rewrite _reloadTech_Ok. exec. eexists. rewrite <- app_assoc.
      split; reflexivity. }
    destruct (strict_eq _ _); [|exists []; now rewrite app_nil_r].
    unfold resumed.
    destruct (currentSession (context w)) as [session|];
      [|exists []; now rewrite app_nil_r].
    destruct (getMediaSession session) as [ms|];
      [destruct (ToBoolean (media ms))|];
      rewrite _reloadTech_Ok; exec; unfold connected; exec;
      eexists; rewrite <- app_assoc; split; reflexivity.
  - rewrite _onSessionStateChange_unloaded by exact H.
    exists []. now rewrite app_nil_r.
Qed.

(** C9: a session-state event whose state is neither SESSION_ENDED nor
    SESSION_RESUMED leaves the world as it is: nothing is triggered on the
    player, nothing is reloaded, the static fields keep their values.  The
    state of the event may be any value at all. *)
Theorem other_session_states_no_action
    (self : Instance) (v : value) (w : World) :
  loaded w ->
  v <> SessionState_value SESSION_ENDED ->
  v <> SessionState_value SESSION_RESUMED ->
  _onSessionStateChange self {| ev_sessionState := v |} w = Ok tt w.
Proof.
  intros [r H] Hended Hresumed.
  unfold _onSessionStateChange. exec_with H.
  rewrite (strict_eq_str_false _ _ Hended). exec_with H.
  now rewrite (strict_eq_str_false _ _ Hresumed).
Qed.

Lemma other_session_states_no_action_witness :
  loaded resumed_world /\
  _onSessionStateChange me (session_event SESSION_STARTED) resumed_world =
    Ok tt resumed_world /\
  _onSessionStateChange me {| ev_sessionState := VUndefined |} resumed_world =
    Ok tt resumed_world.
Proof.
  assert (L : loaded resumed_world) by (exists 3; reflexivity).
  split; [exact L|]. split.
  - apply (other_session_states_no_action me _ resumed_world L); discriminate.
  - apply (other_session_states_no_action me _ resumed_world L); discriminate.
Defined.

(** C3: on SESSION_ENDED the handler triggers 'chromecastDisconnected' on
    the player, once, and reloads the tech with neither a resume time nor a
    playing flag; the calls it makes are exactly the trigger, [src] with the
    current sources and [ready], and the static fields are left alone. *)
Theorem session_ended_disconnects_and_reloads (self : Instance) (w : World) :
  loaded w ->
  let p := player self in
  let r := _onSessionStateChange self (session_event SESSION_ENDED) w in
  r = _reloadTech self VUndefined VUndefined
        (with_calls (calls w ++ [Trigger p "chromecastDisconnected"]) w)
  /\ throws r = false
  /\ calls (world_of r) =
       calls w ++ [Trigger p "chromecastDisconnected";
                   Src p (currentSources (players (host w) p));
                   Ready p]
  /\ triggered p "chromecastDisconnected" (calls (world_of r)) =
       S (triggered p "chromecastDisconnected" (calls w))
  /\ statics (world_of r) = statics w.
Proof.
  intros [c H] p r.
  assert (E : r = _reloadTech self VUndefined VUndefined
                    (with_calls (calls w ++ [Trigger p "chromecastDisconnected"]) w)).
  { subst r p. unfold _onSessionStateChange, session_event. exec_with H.
    reflexivity. }
  split; [exact E|]. rewrite E, _reloadTech_Ok. exec.
  repeat split.
  - now rewrite <- app_assoc.
  - rewrite <- app_assoc, triggered_app. unfold triggered at 2. cbn.
    subst p. rewrite Nat.eqb_refl. cbn. lia.
Qed.

Lemma session_ended_disconnects_and_reloads_witness :
  loaded ended_world /\
  calls (world_of (_onSessionStateChange me (session_event SESSION_ENDED) ended_world)) =
    [Trigger 0 "chromecastDisconnected"; Src 0 [a_source]; Ready 0].
Proof.
  assert (L : loaded ended_world) by (exists 3; reflexivity).
  split; [exact L|].
  exact (proj1 (proj2 (proj2 (session_ended_disconnects_and_reloads me ended_world L)))).
Defined.

(** C1: on SESSION_RESUMED, with the resumed session at hand, the handler
    sets the connection flag, triggers 'chromecastConnected' on the player
    and then reloads the tech: with the media status's [currentTime] and
    with a playing flag that is true iff its [playerState] is 'PLAYING' when
    the status exists and has a media item, and with no parameters
    otherwise. *)
Theorem session_resumed_restores_continuity
    (self : Instance) (w : World) (session : CastSession) :
  loaded w ->
  currentSession (context w) = Some session ->
  let r := _onSessionStateChange self (session_event SESSION_RESUMED) w in
  throws r = false
  /\ hasConnected (statics (world_of r)) = true
  /\ (exists rest,
        calls (world_of r) =
        calls w ++ Trigger (player self) "chromecastConnected" :: rest)
  /\ (forall ms,
        getMediaSession session = Some ms -> ToBoolean (media ms) = true ->
        exists playing,
          (playing = true <-> playerState ms = VStr "PLAYING") /\
          r = _reloadTech self (ms_currentTime ms) (VBool playing)
                (connected self w))
  /\ (getMediaSession session = None \/
      (exists ms, getMediaSession session = Some ms /\ ToBoolean (media ms) = false) ->
      r = _reloadTech self VUndefined VUndefined (connected self w)).
Proof.
  intros [c H] Hs r.
  assert (E : r = match getMediaSession session with
                  | Some ms =>
                      if ToBoolean (media ms)
                      then _reloadTech self (ms_currentTime ms)
                             (VBool (strict_eq (playerState ms) (VStr "PLAYING")))
                             (connected self w)
                      else _reloadTech self VUndefined VUndefined (connected self w)
                  | None => _reloadTech self VUndefined VUndefined (connected self w)
                  end).
  { subst r. unfold _onSessionStateChange, session_event. exec_with H.
    unfold _onSessionResumed. exec_with H. rewrite Hs. exec_with H.
    unfold connected.
    destruct (getMediaSession session) as [ms|]; [|reflexivity].
    destruct (ToBoolean (media ms)); reflexivity. }
  assert (T : forall a b, throws (_reloadTech self a b (connected self w)) = false)
    by (intros; now rewrite _reloadTech_Ok).
  assert (F : forall a b,
             hasConnected (statics (world_of (_reloadTech self a b (connected self w)))) = true)
    by (intros; now rewrite _reloadTech_Ok).
  assert (C : forall a b, exists rest,
             calls (world_of (_reloadTech self a b (connected self w))) =
             calls w ++ Trigger (player self) "chromecastConnected" :: rest).
  { intros. rewrite _reloadTech_Ok. exec. unfold connected. exec.
    eexists. rewrite <- app_assoc. reflexivity. }
  rewrite E.
  repeat split.
  - destruct (getMediaSession session) as [ms|]; [destruct (ToBoolean (media ms))|]; apply T.
  - destruct (getMediaSession session) as [ms|]; [destruct (ToBoolean (media ms))|]; apply F.
  - destruct (getMediaSession session) as [ms|]; [destruct (ToBoolean (media ms))|]; apply C.
  - intros ms Hm Hmedia. rewrite Hm, Hmedia.
    exists (strict_eq (playerState ms) (VStr "PLAYING")).
    split; [apply strict_eq_str | reflexivity].
  - intros [Hn | [ms [Hm Hmedia]]].
    + now rewrite Hn.
    + now rewrite Hm, Hmedia.
Qed.

(** The example of the specification: [currentTime = 42] and
    [playerState = 'PLAYING'] reach the reload as time 42 and playing
    true. *)
Lemma session_resumed_restores_continuity_witness :
  loaded resumed_world /\
  currentSession (context resumed_world) =
    Some {| getMediaSession := Some playing_at_42 |} /\
  _onSessionStateChange me (session_event SESSION_RESUMED) resumed_world =
    _reloadTech me (VNum (Num 42%Q)) (VBool true) (connected me resumed_world) /\
  hasConnected
    (statics (world_of
       (_onSessionStateChange me (session_event SESSION_RESUMED) resumed_world))) = true.
Proof.
  assert (L : loaded resumed_world) by (exists 3; reflexivity).
  split; [exact L|]. split; [reflexivity|].
  destruct (session_resumed_restores_continuity me resumed_world
              {| getMediaSession := Some playing_at_42 |} L eq_refl)
    as (_ & F & _ & P & _).
  split; [|exact F].
  destruct (P playing_at_42 eq_refl eq_refl) as (playing & Hiff & E).
  rewrite E. f_equal. f_equal. now apply Hiff.
Defined.

(** ** Device availability *)

Lemma hasAvailableDevices_state (self : Instance) (s : CastState) (w : World) :
  loaded w ->
  hasAvailableDevices self (CastState_value s) w = Ok (VBool (devices_in s)) w.
Proof.
  intros [c H]. unfold hasAvailableDevices.
  destruct s; exec_with H; reflexivity.
Qed.

Lemma hasAvailableDevices_truthy (self : Instance) (v : value) (w : World) :
  loaded w -> ToBoolean v = true ->
  exists b,
    hasAvailableDevices self v w = Ok (VBool b) w /\
    (b = true <-> v = CastState_value NOT_CONNECTED \/
                  v = CastState_value CONNECTING \/
                  v = CastState_value CONNECTED).
Proof.
  intros [c H] Hv. unfold hasAvailableDevices. rewrite Hv. exec_with H.
  destruct (strict_eq v (VStr "NOT_CONNECTED")) eqn:E1.
  { exists true. split; [reflexivity|]. apply strict_eq_str in E1.
    split; auto. }
  exec_with H.
  destruct (strict_eq v (VStr "CONNECTING")) eqn:E2.
  { exists true. split; [reflexivity|]. apply strict_eq_str in E2.
    split; auto. }
  exec_with H.
  exists (strict_eq v (VStr "CONNECTED")). split; [reflexivity|].
  split.
  - intros E3. apply strict_eq_str in E3. auto.
  - intros [E | [E | E]]; rewrite E in *; try discriminate. reflexivity.
Qed.

Lemma hasAvailableDevices_falsy (self : Instance) (v : value) (w : World) :
  loaded w -> ToBoolean v = false ->
  hasAvailableDevices self v w =
  hasAvailableDevices self (CastState_value (castState (context w))) w.
Proof.
  intros [c H] Hv. unfold hasAvailableDevices.
  rewrite Hv, ToBoolean_CastState_value. exec_with H. reflexivity.
Qed.

(** Whatever it is given, [hasAvailableDevices] answers with a boolean and
    changes nothing. *)
Lemma hasAvailableDevices_bool (self : Instance) (v : value) (w : World) :
  loaded w -> exists b, hasAvailableDevices self v w = Ok (VBool b) w.
Proof.
  intros L. destruct (ToBoolean v) eqn:Hv.
  - destruct (hasAvailableDevices_truthy self v w L Hv) as (b & E & _). eauto.
  - rewrite (hasAvailableDevices_falsy self v w L Hv).
    rewrite hasAvailableDevices_state by exact L. eauto.
Qed.

Lemma hasAvailableDevices_frame (self : Instance) (v : value) (w : World) :
  world_of (hasAvailableDevices self v w) = w
  /\ (loaded w -> throws (hasAvailableDevices self v w) = false).
Proof.
  destruct (window_cast (window w)) eqn:H.
  - destruct (hasAvailableDevices_bool self v w) as [b E]; [now exists r|].
    rewrite E. auto.
  - split; [|intros [c E]; congruence].
    unfold hasAvailableDevices.
    destruct (ToBoolean v); exec_with H; reflexivity.
Qed.

Lemma _notify_trigger (self : Instance) (v : value) (b : bool) (w : World) :
  hasAvailableDevices self v w = Ok (VBool b) w ->
  _notifyPlayerOfDevicesAvailabilityChange self v w =
  Ok tt (with_calls (calls w ++ [Trigger (player self) (availability_event b)]) w).
Proof.
  intros E. unfold _notifyPlayerOfDevicesAvailabilityChange.
  unfold bind at 1. rewrite E. destruct b; reflexivity.
Qed.

Lemma _notify_frame (self : Instance) (v : value) (w : World) :
  let r := _notifyPlayerOfDevicesAvailabilityChange self v w in
  statics (world_of r) = statics w /\ (loaded w -> throws r = false).
Proof.
  unfold _notifyPlayerOfDevicesAvailabilityChange, bind.
  destruct (hasAvailableDevices_frame self v w) as [W T].
  destruct (hasAvailableDevices self v w) as [b w'|e w'];
    cbn [world_of throws] in *; subst w'.
  - destruct (ToBoolean b); exec; auto.
  - auto.
Qed.

(** ** The constructor *)

(** The handles: never an exception where the SDK is loaded, and nothing
    but the two handles, the allocation counter and the log changes. *)
Lemma acquire_handles_loaded (w : World) :
  loaded w ->
  exists w', acquire_handles w = Ok tt w'
             /\ flag w' = flag w
             /\ window w' = window w
             /\ exists l, calls w' = calls w ++ l /\ filter is_availability l = [].
Proof.
  intros [c H]. unfold acquire_handles, flag. exec_with H.
  destruct (ToBoolean (remotePlayer (statics w)));
    exec_with H;
    destruct (ToBoolean (remotePlayerController (statics w)));
    exec_with H;
    eexists; (split; [reflexivity|]); exec; repeat split;
    try (exists []; now rewrite app_nil_r);
    try (eexists; split; [reflexivity|reflexivity]);
    try (eexists; split; [rewrite <- app_assoc; reflexivity|reflexivity]).
Qed.

Lemma acquire_handles_flag (w : World) :
  flag (world_of (acquire_handles w)) = flag w.
Proof.
  unfold acquire_handles, flag.
  destruct (window_cast (window w)) eqn:H; exec_with H;
    destruct (ToBoolean (remotePlayer (statics w)));
    exec_with H;
    destruct (ToBoolean (remotePlayerController (statics w)));
    exec_with H; reflexivity.
Qed.

(** The constructor in three parts: registration and the availability
    event; the current session state processed as an event; the static
    handles. *)
Lemma constructor_loaded (p : player_id) (w : World) :
  loaded w ->
  let self := {| player := p; inst_id := next_ref w |} in
  constructor p w =
    match _onSessionStateChange self
            (session_event (sessionState (context w))) (announced self w) with
    | Ok _ w2 =>
        match acquire_handles w2 with
        | Ok _ w3 => Ok self w3
        | Throw e w3 => Throw e w3
        end
    | Throw e w2 => Throw e w2
    end.
Proof.
  intros [c H] self.
  unfold constructor, announced, announce, _addCastContextEventListeners,
    _notifyPlayerOfDevicesAvailabilityChange, hasAvailableDevices,
    acquire_handles, session_event.
  fold self.
  destruct (castState (context w)) eqn:Ec;
    repeat (exec_with H; rewrite ?Ec);
    (destruct (_onSessionStateChange _ _ _) as [[] w2|e w2]; [|reflexivity]);
    destruct (window_cast (window w2)) eqn:H2;
    exec_with H2;
    repeat (branch; exec_with H2); reflexivity.
Qed.

Lemma announced_loaded (self : Instance) (w : World) :
  loaded w ->
  window (announced self w) = window w
  /\ statics (announced self w) = statics w
  /\ currentSession (context (announced self w)) = currentSession (context w)
  /\ calls (announced self w) =
       calls w ++
       [AddEventListener SESSION_STATE_CHANGED (SessionListener self);
        AddEventListener CAST_STATE_CHANGED (CastListener self);
        On (player self) "dispose";
        Trigger (player self)
          (availability_event (devices_in (castState (context w))))].
Proof.
  intros [c H].
  unfold announced, announce, _addCastContextEventListeners,
    _notifyPlayerOfDevicesAvailabilityChange, hasAvailableDevices.
  destruct (castState (context w)) eqn:Ec;
    repeat (exec_with H; rewrite ?Ec);
    repeat split; rewrite <- ?app_assoc; reflexivity.
Qed.

Lemma constructor_unloaded (p : player_id) (w : World) :
  window_cast (window w) = None ->
  constructor p w =
  Throw (ReferenceError "cast") (with_next_ref (S (next_ref w)) w).
Proof.
  intros H. unfold constructor, _addCastContextEventListeners.
  exec_with H. reflexivity.
Qed.

Lemma constructor_world (p : player_id) (w : World) :
  loaded w ->
  let self := {| player := p; inst_id := next_ref w |} in
  let r := _onSessionStateChange self
             (session_event (sessionState (context w))) (announced self w) in
  (throws (constructor p w) = throws r)
  /\ flag (world_of (constructor p w)) = flag (world_of r).
Proof.
  intros L self r. rewrite (constructor_loaded p w L). fold self. fold r.
  assert (W : window (world_of r) = window w).
  { subst r. rewrite _onSessionStateChange_window.
    apply (announced_loaded self w L). }
  destruct r as [[] w2|e w2]; cbn [world_of throws] in *; [|auto].
  assert (L2 : loaded w2) by (unfold loaded in *; now rewrite W).
  destruct (acquire_handles_loaded w2 L2) as (w3 & E & F & _).
  rewrite E. cbn. auto.
Qed.

Lemma constructor_flag (p : player_id) (w : World) :
  flag (world_of (constructor p w)) = flag w
  \/ (flag (world_of (constructor p w)) = true /\
      sessionState (context w) = SESSION_RESUMED).
Proof.
  destruct (window_cast (window w)) eqn:H.
  - assert (L : loaded w) by now exists r.
    destruct (constructor_world p w L) as [_ F]. rewrite F.
    set (self := {| player := p; inst_id := next_ref w |}).
    assert (S : flag (announced self w) = flag w).
    { unfold flag. now rewrite (proj1 (proj2 (announced_loaded self w L))). }
    destruct (_onSessionStateChange_flag self
                (session_event (sessionState (context w))) (announced self w))
      as [E | [E R]].
    + left. now rewrite E.
    + right. split; [exact E|]. now apply SessionState_value_inj.
  - rewrite constructor_unloaded by exact H. now left.
Qed.

Lemma constructor_throws (p : player_id) (w : World) :
  loaded w ->
  throws (constructor p w) = true <->
  sessionState (context w) = SESSION_RESUMED /\
  currentSession (context w) = None.
Proof.
  intros L. destruct (constructor_world p w L) as [T _]. rewrite T.
  set (self := {| player := p; inst_id := next_ref w |}).
  destruct (announced_loaded self w L) as (W & _ & C & _).
  rewrite _onSessionStateChange_throws
    by (unfold loaded in *; now rewrite W).
  rewrite C. cbn [session_event ev_sessionState].
  split; intros [E N]; split; auto.
  - now apply SessionState_value_inj.
  - now rewrite E.
Qed.

(** The constructor evaluates availability once: of all it calls, one call
    triggers an availability event, the one that matches the current cast
    state; this also holds when the constructor ends in an exception. *)
Lemma constructor_availability (p : player_id) (w : World) :
  loaded w ->
  filter is_availability (calls (world_of (constructor p w))) =
  filter is_availability (calls w) ++
  [Trigger p (availability_event (devices_in (castState (context w))))].
Proof.
  intros L. rewrite (constructor_loaded p w L).
  set (self := {| player := p; inst_id := next_ref w |}).
  destruct (announced_loaded self w L) as (W & _ & _ & C).
  destruct (_onSessionStateChange_calls self
              (session_event (sessionState (context w))) (announced self w))
    as (l & El & Fl).
  pose proof (_onSessionStateChange_window self
                (session_event (sessionState (context w))) (announced self w))
    as W2.
  assert (A : filter is_availability (calls (announced self w) ++ l) =
              filter is_availability (calls w) ++
              [Trigger p (availability_event (devices_in (castState (context w))))]).
  { rewrite C, !filter_app, Fl, app_nil_r. f_equal.
    now destruct (devices_in (castState (context w))). }
  destruct (_onSessionStateChange self _ (announced self w)) as [[] w2|e w2];
    cbn [world_of] in *.
  - assert (L2 : loaded w2) by (unfold loaded in *; now rewrite W2, W).
    destruct (acquire_handles_loaded w2 L2) as (w3 & E & _ & _ & l3 & E3 & F3).
    rewrite E. cbn [world_of].
    now rewrite E3, filter_app, F3, app_nil_r, El.
  - now rewrite El.
Qed.

(** C4: [hasAvailableDevices(state)] is true iff the state is one of
    NOT_CONNECTED, CONNECTING and CONNECTED, false for every other state;
    without an argument (or with a falsy one) it evaluates the current cast
    state of the context; and every evaluation of availability (a cast-state
    change, the notification, the one the constructor makes) triggers
    exactly one of 'chromecastDevicesAvailable' and
    'chromecastDevicesUnavailable' on the player, the one the predicate
    chooses. *)
Theorem device_availability (self : Instance) (w : World) :
  loaded w ->
  (forall s : CastState,
     hasAvailableDevices self (CastState_value s) w = Ok (VBool (devices_in s)) w)
  /\ (forall v, ToBoolean v = true ->
        exists b,
          hasAvailableDevices self v w = Ok (VBool b) w /\
          (b = true <-> v = CastState_value NOT_CONNECTED \/
                        v = CastState_value CONNECTING \/
                        v = CastState_value CONNECTED))
  /\ hasAvailableDevices self VUndefined w =
       Ok (VBool (devices_in (castState (context w)))) w
  /\ (forall v, exists b,
        hasAvailableDevices self v w = Ok (VBool b) w /\
        _notifyPlayerOfDevicesAvailabilityChange self v w =
          Ok tt (with_calls
                   (calls w ++ [Trigger (player self) (availability_event b)]) w) /\
        _onCastStateChange self {| ev_castState := v |} w =
          Ok tt (with_calls
                   (calls w ++ [Trigger (player self) (availability_event b)]) w))
  /\ filter is_availability (calls (world_of (constructor (player self) w))) =
       filter is_availability (calls w) ++
       [Trigger (player self)
          (availability_event (devices_in (castState (context w))))].
Proof.
  intros L. repeat split.
  - intros s. now apply hasAvailableDevices_state.
  - intros v Hv. now apply hasAvailableDevices_truthy.
  - rewrite hasAvailableDevices_falsy by (exact L || reflexivity).
    now apply hasAvailableDevices_state.
  - intros v. destruct (hasAvailableDevices_bool self v w L) as [b E].
    exists b. split; [exact E|].
    unfold _onCastStateChange. cbn [ev_castState].
    split; now apply _notify_trigger.
  - now apply constructor_availability.
Qed.

Lemma device_availability_witness :
  loaded no_devices_world /\
  hasAvailableDevices me (VStr "CONNECTING") no_devices_world =
    Ok (VBool true) no_devices_world /\
  hasAvailableDevices me VUndefined no_devices_world =
    Ok (VBool false) no_devices_world /\
  filter is_availability (calls (world_of (constructor 0 no_devices_world))) =
    [Trigger 0 "chromecastDevicesUnavailable"].
Proof.
  assert (L : loaded no_devices_world) by (exists 3; reflexivity).
  destruct (device_availability me no_devices_world L) as (S & _ & U & _ & K).
  split; [exact L|]. split; [exact (S CONNECTING)|]. split; [exact U | exact K].
Defined.

(** ** The cast menu *)

Lemma settleRequest_eq (s : Settlement) (w : World) :
  settleRequest s w =
  match requests (context w) with
  | [] => Ok None w
  | self :: rest =>
      match s with
      | Fulfilled =>
          Ok (Some Resolved)
             (world_of (_reloadTech self VUndefined VUndefined
                          (connected self (settled rest w))))
      | Rejected _ => Ok (Some Resolved) (settled rest w)
      end
  end.
Proof.
  unfold settleRequest. exec.
  destruct (requests (context w)) as [|self rest]; exec; [reflexivity|].
  destruct s; exec; [|reflexivity].
  unfold onSessionSuccess, _reloadTech. exec. reflexivity.
Qed.

(** X15: [openCastMenu()] does nothing at all when [currentSource()] is
    falsy; otherwise it requests a session, which stays pending.
    When the request is fulfilled the flag is set, 'chromecastConnected' is
    triggered and the tech is reloaded without parameters; when it is
    rejected nothing happens, and in both cases the promise returned by
    [.then] is resolved, so no rejection reaches anyone. *)
Theorem openCastMenu_contract (self : Instance) (w : World) :
  (ToBoolean (currentSource (players (host w) (player self))) = false ->
   openCastMenu self w = Ok tt w)
  /\ (ToBoolean (currentSource (players (host w) (player self))) = true ->
      loaded w ->
      openCastMenu self w =
      Ok tt (with_context
               (with_requests (requests (context w) ++ [self]) (context w))
               (with_calls (calls w ++ [RequestSession]) w)))
  /\ (forall rest, requests (context w) = self :: rest ->
      settleRequest Fulfilled w =
        Ok (Some Resolved)
           (world_of (_reloadTech self VUndefined VUndefined
                        (connected self (settled rest w)))) /\
      forall reason,
        settleRequest (Rejected reason) w = Ok (Some Resolved) (settled rest w)).
Proof.
  repeat split.
  - intros Hs. unfold openCastMenu. exec. now rewrite Hs.
  - intros Hs [c H]. unfold openCastMenu. exec. rewrite Hs. exec_with H.
    reflexivity.
  - unfold settleRequest. exec. rewrite H. exec.
    unfold onSessionSuccess, _reloadTech. exec. reflexivity.
  - intros reason. unfold settleRequest. exec. rewrite H. exec. reflexivity.
Qed.

Lemma openCastMenu_contract_witness :
  openCastMenu me no_source_world = Ok tt no_source_world /\
  calls (world_of (openCastMenu me idle_world)) = [RequestSession] /\
  requests (context requested_world) = [me] /\
  hasConnected (statics (world_of (run (SettleRequest Fulfilled) requested_world))) = true /\
  settleRequest (Rejected (VStr "cancel")) requested_world =
    Ok (Some Resolved) (settled [] requested_world).
Proof.
  split.
  { exact (proj1 (openCastMenu_contract me no_source_world) eq_refl). }
  split.
  { rewrite (proj1 (proj2 (openCastMenu_contract me idle_world)) eq_refl
               (ex_intro _ 3 eq_refl)).
    reflexivity. }
  split; [reflexivity|].
  destruct (proj2 (proj2 (openCastMenu_contract me requested_world)) [] eq_refl)
    as [F R].
  split.
  { unfold run, bind. rewrite F. reflexivity. }
  exact (R (VStr "cancel")).
Defined.

(** C5: on a Video.js player with no source loaded [openCastMenu()] does
    not return early: [currentSource()] answers an empty object, which is
    truthy, so the session is requested; when the request is fulfilled the
    flag is set, 'chromecastConnected' is triggered and the empty list of
    sources is re-applied. *)
Theorem openCastMenu_requests_without_source :
  currentSources (players (host videojs_empty_world) (player me)) = []
  /\ calls (world_of (openCastMenu me videojs_empty_world)) = [RequestSession]
  /\ requests (context (world_of (openCastMenu me videojs_empty_world))) = [me]
  /\ calls (run_all [OpenCastMenu me; SettleRequest Fulfilled] videojs_empty_world) =
       [RequestSession; Trigger 0 "chromecastConnected"; Src 0 []; Ready 0]
  /\ hasConnected (statics (run_all [OpenCastMenu me; SettleRequest Fulfilled]
                              videojs_empty_world)) = true.
Proof. repeat split; reflexivity. Qed.

(** ** The static probes *)

(** The probe changes nothing and never throws; what it returns is truthy
    iff the three namespaces exist. *)
Lemma isChromecastAPIAvailable_truthy (w : World) :
  exists v, isChromecastAPIAvailable w = Ok v w /\
            (ToBoolean v = true <-> api_present w).
Proof.
  unfold isChromecastAPIAvailable, api_present, loaded. exec.
  destruct (window_chrome (window w)) as [chrome|].
  - destruct (chrome_cast chrome) as [c|] eqn:Ec;
      [destruct (window_cast (window w)) as [r|]|];
      (eexists; split; [reflexivity|]); cbn; split;
      try discriminate; try reflexivity.
    + intros _. split; eauto.
    + intros [_ [r E]]; discriminate.
    + intros [(ch & c & E1 & E2) _]. inversion E1; subst. congruence.
  - eexists; split; [reflexivity|]. cbn. split; [discriminate|].
    intros [(ch & c & E1 & E2) _]. discriminate.
Qed.

(** X3: the capability probe never throws and leaves the world as it is;
    what it returns is truthy iff [window.chrome], [window.chrome.cast] and
    [window.cast] all exist. *)
Theorem isChromecastAPIAvailable_probe (w : World) :
  exists v, isChromecastAPIAvailable w = Ok v w /\
            (ToBoolean v = true <-> api_present w).
Proof. exact (isChromecastAPIAvailable_truthy w). Qed.

(** [isChromecastConnected()] in closed form: the probe's own falsy answer
    where the API is missing, else a boolean. *)
Lemma isChromecastConnected_eq (w : World) :
  isChromecastConnected w =
  Ok match isChromecastAPIAvailable w with
     | Ok a _ =>
         if ToBoolean a
         then VBool match castState (context w) with
                    | CONNECTED => hasConnected (statics w)
                    | _ => false
                    end
         else a
     | Throw _ _ => VUndefined
     end w.
Proof.
  destruct (isChromecastAPIAvailable_truthy w) as (a & Ea & Ha).
  unfold isChromecastConnected. unfold bind at 1. rewrite Ea.
  destruct (ToBoolean a); [|reflexivity].
  destruct (proj1 Ha eq_refl) as [_ [r H]].
  destruct (castState (context w)) eqn:Ec;
    exec_with H; rewrite Ec; exec_with H; reflexivity.
Qed.

Lemma isChromecastConnected_never_throws (w : World) :
  exists v, isChromecastConnected w = Ok v w.
Proof. rewrite isChromecastConnected_eq. eauto. Qed.

(** C6: [isChromecastConnected()] returns [true] iff the casting API is
    present, the cast state of the context is CONNECTED and the connection
    flag is set.  It never throws and changes nothing.  While the flag is
    unset the answer is falsy whatever the cast state, and where the API is
    present and the state is CONNECTED it is [false]. *)
Theorem isChromecastConnected_iff (w : World) :
  (exists v, isChromecastConnected w = Ok v w)
  /\ (isChromecastConnected w = Ok (VBool true) w <->
      api_present w /\ castState (context w) = CONNECTED /\
      hasConnected (statics w) = true)
  /\ (hasConnected (statics w) = false ->
      exists v, isChromecastConnected w = Ok v w /\ ToBoolean v = false)
  /\ (api_present w -> castState (context w) = CONNECTED ->
      hasConnected (statics w) = false ->
      isChromecastConnected w = Ok (VBool false) w).
Proof.
  rewrite isChromecastConnected_eq.
  destruct (isChromecastAPIAvailable_truthy w) as (a & Ea & Ha).
  rewrite Ea. clear Ea.
  destruct (ToBoolean a) eqn:Ta.
  - assert (P : api_present w) by now apply Ha.
    split; [eauto|]. split; [|split].
    + split.
      * intros E. inversion E as [E'].
        destruct (castState (context w)); try discriminate. auto.
      * intros (_ & Ec & Eh). now rewrite Ec, Eh.
    + intros Eh. eexists; split; [reflexivity|]. cbn.
      now destruct (castState (context w)).
    + intros _ Ec Eh. now rewrite Ec, Eh.
  - assert (N : ~ api_present w).
    { intros P. apply Ha in P. discriminate. }
    split; [eauto|]. split; [|split].
    + split.
      * intros E. inversion E. subst a. discriminate.
      * intros (P & _). contradiction.
    + intros _. eauto.
    + intros P. contradiction.
Qed.

Lemma api_present_foreign : api_present foreign_session_world.
Proof.
  split; [exists {| chrome_obj := 1; chrome_cast := Some 2 |}, 2 | exists 3];
    split; reflexivity.
Defined.

Lemma isChromecastConnected_iff_witness :
  api_present foreign_session_world /\
  castState (context foreign_session_world) = CONNECTED /\
  hasConnected (statics foreign_session_world) = false /\
  isChromecastConnected foreign_session_world =
    Ok (VBool false) foreign_session_world.
Proof.
  split; [exact api_present_foreign|]. split; [reflexivity|].
  split; [reflexivity|].
  exact (proj2 (proj2 (proj2 (isChromecastConnected_iff foreign_session_world)))
           api_present_foreign eq_refl eq_refl).
Defined.

(** C10: what [isChromecastAPIAvailable()] returns is not a boolean: with
    the three namespaces present it is the [window.cast] object, and
    without [window.chrome] it is [undefined].  The world is the same after
    the call. *)
Theorem isChromecastAPIAvailable_returns_operand :
  isChromecastAPIAvailable idle_world = Ok (VObj 3) idle_world /\
  isChromecastAPIAvailable no_api_world = Ok VUndefined no_api_world.
Proof. split; reflexivity. Qed.

(** ** Callbacks *)

Lemma run_ready_Ok (p : player_id) (q : list (player_id * ReadyCallback))
    (w : World) :
  exists l, run_ready p q w = Ok tt (with_calls (calls w ++ l) w).
Proof.
  revert w. induction q as [|[p' fn] q IH]; intros w.
  - exists []. cbn. unfold ret, with_calls. rewrite app_nil_r. now destruct w.
  - cbn [run_ready]. unfold bind at 1.
    destruct (Nat.eqb p' p).
    + unfold ready_callback. exec.
      destruct (ToBoolean (wasPlaying fn)); exec;
      match goal with |- context [run_ready p q ?w1] =>
        destruct (IH w1) as [l E]; rewrite E end;
      exec; eexists; rewrite <- !app_assoc; reflexivity.
    + exec. apply IH.
Qed.

Lemma _removeCastContextEventListeners_frame (self : Instance) (w : World) :
  let r := _removeCastContextEventListeners self w in
  statics (world_of r) = statics w
  /\ window (world_of r) = window w
  /\ (loaded w -> throws r = false).
Proof.
  unfold _removeCastContextEventListeners.
  destruct (window_cast (window w)) eqn:H; exec_with H; repeat split.
  intros [c E]. congruence.
Qed.

Lemma run_hooks_frame (p : player_id) (hs : list (player_id * Instance))
    (w : World) :
  statics (world_of (run_hooks p hs w)) = statics w
  /\ window (world_of (run_hooks p hs w)) = window w
  /\ (loaded w -> throws (run_hooks p hs w) = false).
Proof.
  revert w. induction hs as [|[p' self] hs IH]; intros w.
  - cbn. auto.
  - cbn [run_hooks]. unfold bind.
    destruct (Nat.eqb p' p).
    + destruct (_removeCastContextEventListeners_frame self w) as (S & W & T).
      destruct (_removeCastContextEventListeners self w) as [[] w1|e w1];
        cbn [world_of throws] in *.
      * destruct (IH w1) as (S1 & W1 & T1).
        rewrite S1, W1, S, W. repeat split.
        intros L. apply T1. unfold loaded in *. now rewrite W.
      * repeat split; auto.
    + exec. apply IH.
Qed.

(** ** The shared handles *)

Lemma constructor_Ok_inv (p : player_id) (w w' : World) (s : Instance) :
  loaded w -> constructor p w = Ok s w' ->
  s = {| player := p; inst_id := next_ref w |} /\
  exists w2,
    _onSessionStateChange s (session_event (sessionState (context w)))
      (announced s w) = Ok tt w2 /\
    acquire_handles w2 = Ok tt w'.
Proof.
  intros L E. rewrite (constructor_loaded p w L) in E.
  destruct (_onSessionStateChange _ _ _) as [[] w2|e w2] eqn:E2; [|discriminate].
  destruct (acquire_handles w2) as [[] w3|e w3] eqn:E3; [|discriminate].
  inversion E; subst. split; [reflexivity|]. eauto.
Qed.

Lemma _onSessionStateChange_handles
    (self : Instance) (event : SessionStateEvent) (w : World) :
  let w' := world_of (_onSessionStateChange self event w) in
  remotePlayer (statics w') = remotePlayer (statics w) /\
  remotePlayerController (statics w') = remotePlayerController (statics w).
Proof.
  destruct (window_cast (window w)) eqn:H; cbv zeta.
  - rewrite _onSessionStateChange_loaded by (now exists r).
    destruct (strict_eq _ _); [now rewrite _reloadTech_Ok|].
    destruct (strict_eq _ _); [|auto].
    unfold resumed.
    destruct (currentSession (context w)) as [session|]; [|auto].
    destruct (getMediaSession session) as [ms|];
      [destruct (ToBoolean (media ms))|]; now rewrite _reloadTech_Ok.
  - now rewrite _onSessionStateChange_unloaded.
Qed.

Lemma acquire_handles_reuse (w : World) :
  loaded w ->
  exists w',
    acquire_handles w = Ok tt w'
    /\ window w' = window w
    /\ ToBoolean (remotePlayer (statics w')) = true
    /\ ToBoolean (remotePlayerController (statics w')) = true
    /\ (ToBoolean (remotePlayer (statics w)) = true ->
        remotePlayer (statics w') = remotePlayer (statics w))
    /\ (ToBoolean (remotePlayerController (statics w)) = true ->
        remotePlayerController (statics w') = remotePlayerController (statics w)).
Proof.
  intros [c H]. unfold acquire_handles. exec_with H.
  destruct (ToBoolean (remotePlayer (statics w))) eqn:E1;
    exec_with H;
    destruct (ToBoolean (remotePlayerController (statics w))) eqn:E2;
    exec_with H;
    eexists; (split; [reflexivity|]); exec; repeat split;
    auto; discriminate.
Qed.

(** What a construction that succeeds leaves behind: both static handles
    exist, and a handle that existed before is the one that is kept. *)
Lemma constructor_handles (p : player_id) (w w' : World) (s : Instance) :
  loaded w -> constructor p w = Ok s w' ->
  loaded w'
  /\ ToBoolean (remotePlayer (statics w')) = true
  /\ ToBoolean (remotePlayerController (statics w')) = true
  /\ (ToBoolean (remotePlayer (statics w)) = true ->
      remotePlayer (statics w') = remotePlayer (statics w))
  /\ (ToBoolean (remotePlayerController (statics w)) = true ->
      remotePlayerController (statics w') = remotePlayerController (statics w)).
Proof.
  intros L E.
  destruct (constructor_Ok_inv p w w' s L E) as (_ & w2 & E2 & E3).
  destruct (announced_loaded s w L) as (W & S & _).
  pose proof (_onSessionStateChange_window s
                (session_event (sessionState (context w))) (announced s w)) as W2.
  destruct (_onSessionStateChange_handles s
              (session_event (sessionState (context w))) (announced s w))
    as [P C].
  rewrite E2 in W2, P, C. cbn [world_of] in *.
  assert (L2 : loaded w2) by (unfold loaded in *; now rewrite W2, W).
  destruct (acquire_handles_reuse w2 L2) as (w3 & E3' & W3 & T1 & T2 & K1 & K2).
  rewrite E3 in E3'. inversion E3'; subst w3.
  rewrite P, C, S in *.
  repeat split; auto.
  unfold loaded in *. now rewrite W3, W2, W.
Qed.

(** ** Disposal *)

Lemma Instance_eqb_refl (self : Instance) : Instance_eqb self self = true.
Proof. unfold Instance_eqb. now rewrite !Nat.eqb_refl. Qed.

Lemma _removeCastContextEventListeners_loaded (self : Instance) (w : World) :
  loaded w ->
  exists w',
    _removeCastContextEventListeners self w = Ok tt w'
    /\ window w' = window w
    /\ listeners (context w') =
       filter (fun e => negb (CastContextEventType_eqb (fst e) CAST_STATE_CHANGED
                              && Listener_eqb (snd e) (CastListener self)))
         (filter (fun e => negb (CastContextEventType_eqb (fst e) SESSION_STATE_CHANGED
                                 && Listener_eqb (snd e) (SessionListener self)))
            (listeners (context w))).
Proof.
  intros [c H]. unfold _removeCastContextEventListeners. exec_with H.
  eexists. split; [reflexivity|]. split; reflexivity.
Qed.

Lemma unregistered_filter (self : Instance) f l :
  unregistered self l -> unregistered self (filter f l).
Proof.
  intros [A B]. split; intros I; apply filter_In in I; tauto.
Qed.

Lemma _removeCastContextEventListeners_unregisters (self : Instance) (w : World) :
  loaded w ->
  unregistered self
    (listeners (context (world_of (_removeCastContextEventListeners self w)))).
Proof.
  intros L.
  destruct (_removeCastContextEventListeners_loaded self w L) as (w' & E & _ & F).
  rewrite E. cbn [world_of]. rewrite F. split; intros I.
  - apply filter_In in I. destruct I as [I _].
    apply filter_In in I. destruct I as [_ I]. cbn in I.
    rewrite Instance_eqb_refl in I. discriminate.
  - apply filter_In in I. destruct I as [_ I]. cbn in I.
    rewrite Instance_eqb_refl in I. discriminate.
Qed.

Lemma run_hooks_keeps_unregistered
    (s : Instance) (p : player_id) (hs : list (player_id * Instance)) (w : World) :
  loaded w ->
  unregistered s (listeners (context w)) ->
  unregistered s (listeners (context (world_of (run_hooks p hs w)))).
Proof.
  revert w. induction hs as [|[p' self] hs IH]; intros w L U; [exact U|].
  cbn [run_hooks]. unfold bind.
  destruct (Nat.eqb p' p); [|exec; now apply IH].
  destruct (_removeCastContextEventListeners_loaded self w L) as (w' & E & W & F).
  rewrite E. apply IH.
  - unfold loaded in *. now rewrite W.
  - rewrite F. now repeat apply unregistered_filter.
Qed.

Lemma run_hooks_unregisters
    (s : Instance) (p : player_id) (hs : list (player_id * Instance)) (w : World) :
  loaded w -> In (p, s) hs ->
  unregistered s (listeners (context (world_of (run_hooks p hs w)))).
Proof.
  revert w. induction hs as [|[p' self] hs IH]; intros w L I; [contradiction|].
  cbn [run_hooks]. unfold bind.
  destruct I as [I | I].
  - inversion I; subst. rewrite Nat.eqb_refl.
    pose proof (_removeCastContextEventListeners_unregisters s w L) as U.
    destruct (_removeCastContextEventListeners_loaded s w L) as (w' & E & W & _).
    rewrite E in *. cbn [world_of] in U.
    apply run_hooks_keeps_unregistered; [|exact U].
    unfold loaded in *. now rewrite W.
  - destruct (Nat.eqb p' p); [|exec; now apply IH].
    destruct (_removeCastContextEventListeners_loaded self w L) as (w' & E & W & _).
    rewrite E. apply IH; [|exact I].
    unfold loaded in *. now rewrite W.
Qed.

Lemma _onSessionStateChange_registry
    (self : Instance) (event : SessionStateEvent) (w : World) :
  let w' := world_of (_onSessionStateChange self event w) in
  context w' = context w /\ disposeHooks (host w') = disposeHooks (host w).
Proof.
  destruct (window_cast (window w)) eqn:H; cbv zeta.
  - rewrite _onSessionStateChange_loaded by (now exists r).
    destruct (strict_eq _ _); [now rewrite _reloadTech_Ok|].
    destruct (strict_eq _ _); [|auto].
    unfold resumed.
    destruct (currentSession (context w)) as [session|]; [|auto].
    destruct (getMediaSession session) as [ms|];
      [destruct (ToBoolean (media ms))|]; now rewrite _reloadTech_Ok.
  - now rewrite _onSessionStateChange_unloaded.
Qed.

Lemma acquire_handles_registry (w : World) :
  context (world_of (acquire_handles w)) = context w /\
  host (world_of (acquire_handles w)) = host w.
Proof.
  unfold acquire_handles.
  destruct (window_cast (window w)) eqn:H; exec_with H;
    destruct (ToBoolean (remotePlayer (statics w)));
    exec_with H;
    destruct (ToBoolean (remotePlayerController (statics w)));
    exec_with H; split; reflexivity.
Qed.

Lemma announced_registry (self : Instance) (w : World) :
  loaded w ->
  listeners (context (announced self w)) =
    listeners (context w) ++
    [(SESSION_STATE_CHANGED, SessionListener self);
     (CAST_STATE_CHANGED, CastListener self)]
  /\ disposeHooks (host (announced self w)) =
       disposeHooks (host w) ++ [(player self, self)].
Proof.
  intros [c H].
  unfold announced, announce, _addCastContextEventListeners,
    _notifyPlayerOfDevicesAvailabilityChange, hasAvailableDevices.
  destruct (castState (context w)) eqn:Ec;
    repeat (exec_with H; rewrite ?Ec);
    split; rewrite <- ?app_assoc; reflexivity.
Qed.

(** X2: an instance whose construction succeeded has
    its two listeners registered on the cast context, and once its player
    is disposed neither is registered any more; the teardown does not
    throw. *)
Theorem dispose_removes_listeners
    (p : player_id) (w w1 : World) (s : Instance) :
  loaded w ->
  constructor p w = Ok s w1 ->
  In (SESSION_STATE_CHANGED, SessionListener s) (listeners (context w1))
  /\ In (CAST_STATE_CHANGED, CastListener s) (listeners (context w1))
  /\ throws (playerDispose p w1) = false
  /\ unregistered s (listeners (context (world_of (playerDispose p w1)))).
Proof.
  intros L E.
  destruct (constructor_handles p w w1 s L E) as (L1 & _).
  destruct (constructor_Ok_inv p w w1 s L E) as (Es & w2 & E2 & E3).
  destruct (announced_registry s w L) as [R D].
  destruct (_onSessionStateChange_registry s
              (session_event (sessionState (context w))) (announced s w))
    as [C2 D2].
  rewrite E2 in C2, D2. cbn [world_of] in C2, D2.
  destruct (acquire_handles_registry w2) as [C3 D3].
  rewrite E3 in C3, D3. cbn [world_of] in C3, D3.
  assert (Ls : listeners (context w1) =
               listeners (context w) ++
               [(SESSION_STATE_CHANGED, SessionListener s);
                (CAST_STATE_CHANGED, CastListener s)])
    by now rewrite C3, C2.
  assert (Hk : In (p, s) (disposeHooks (host w1))).
  { rewrite D3, D2, D. apply in_or_app. right. left.
    rewrite Es at 1. reflexivity. }
  rewrite Ls. repeat split.
  - apply in_or_app. right. now left.
  - apply in_or_app. right. right. now left.
  - unfold playerDispose. exec. now apply run_hooks_frame.
  - unfold playerDispose. exec. now apply run_hooks_unregisters.
  - unfold playerDispose. exec. now apply run_hooks_unregisters.
Qed.

Lemma dispose_removes_listeners_witness :
  loaded idle_world /\
  exists s w1,
    constructor 0 idle_world = Ok s w1 /\
    length (listeners (context w1)) = 2 /\
    unregistered s (listeners (context (world_of (playerDispose 0 w1)))) /\
    listeners (context (world_of (playerDispose 0 w1))) = [].
Proof.
  assert (L : loaded idle_world) by (exists 3; reflexivity).
  split; [exact L|].
  destruct (constructor 0 idle_world) as [s w1|e w1] eqn:E1;
    [|vm_compute in E1; discriminate E1].
  exists s, w1.
  destruct (dispose_removes_listeners 0 idle_world w1 s L E1) as (_ & _ & _ & U).
  vm_compute in E1. inversion E1; subst.
  split; [reflexivity|]. split; [reflexivity|]. split; [exact U | reflexivity].
Defined.

(** ** Every operation, one at a time *)

(** One operation either leaves the flag as it is, or sets it and is a
    successful connect. *)
Lemma run_flag (o : Op) (w : World) :
  flag (world_of (run o w)) = flag w
  \/ (flag (world_of (run o w)) = true /\ connects o w).
Proof.
  destruct o as [p | self event | self event | self v | self | self | self
                | | | s | p | p | e];
    cbn [run]; unfold connects, resumes.
  - (* New *)
    assert (E : world_of ((constructor p;; ret tt) w) = world_of (constructor p w))
      by (unfold bind, ret; now destruct (constructor p w)).
    rewrite E. destruct (constructor_flag p w) as [F | [F R]]; auto.
  - (* OnSessionStateChange *)
    destruct (_onSessionStateChange_flag self event w) as [F | [F R]]; auto.
  - (* OnCastStateChange *)
    left. unfold _onCastStateChange, flag.
    now rewrite (proj1 (_notify_frame self (ev_castState event) w)).
  - (* HasAvailableDevices *)
    left. unfold bind, ret.
    destruct (hasAvailableDevices_frame self v w) as [W _].
    destruct (hasAvailableDevices self v w); cbn in *; now subst.
  - (* OpenCastMenu *)
    left. unfold openCastMenu. exec.
    destruct (ToBoolean (currentSource (players (host w) (player self))));
      exec; [|reflexivity].
    destruct (window_cast (window w)) eqn:H; exec_with H; reflexivity.
  - now left.
  - now left.
  - left. destruct (isChromecastAPIAvailable_truthy w) as (v & E & _).
    unfold bind. now rewrite E.
  - left. destruct (isChromecastConnected_never_throws w) as (v & E).
    unfold bind. now rewrite E.
  - (* SettleRequest *)
    unfold bind, ret. rewrite settleRequest_eq.
    destruct (requests (context w)) as [|self rest] eqn:R; [now left|].
    destruct s; [|now left].
    right. rewrite _reloadTech_Ok. split; [reflexivity|].
    right. split; [reflexivity | discriminate].
  - (* PlayerReady *)
    left. unfold playerReady. exec.
    match goal with |- context [run_ready p ?q ?w1] =>
      destruct (run_ready_Ok p q w1) as [l E]; rewrite E end.
    reflexivity.
  - (* PlayerDispose *)
    left. unfold playerDispose, flag. exec.
    now rewrite (proj1 (run_hooks_frame p (disposeHooks (host w)) w)).
  - now left.
Qed.

(** Where the SDK is loaded, one operation throws exactly when it
    processes SESSION_RESUMED while there is no current session. *)
Lemma run_throws (o : Op) (w : World) :
  loaded w ->
  throws (run o w) = true <->
  resumes o w /\ currentSession (context w) = None.
Proof.
  intros L.
  assert (no : forall r : result unit,
             throws r = false -> throws r = true <-> False /\ currentSession (context w) = None).
  { intros r E. rewrite E. split; [discriminate | tauto]. }
  destruct o as [p | self event | self event | self v | self | self | self
                | | | s | p | p | e];
    cbn [run resumes].
  - assert (E : throws ((constructor p;; ret tt) w) = throws (constructor p w))
      by (unfold bind, ret; now destruct (constructor p w)).
    rewrite E. now apply constructor_throws.
  - now apply _onSessionStateChange_throws.
  - apply no. now apply _notify_frame.
  - apply no. unfold bind, ret.
    destruct (hasAvailableDevices_frame self v w) as [_ T].
    specialize (T L). now destruct (hasAvailableDevices self v w).
  - apply no. destruct L as [c H]. unfold openCastMenu. exec.
    destruct (ToBoolean (currentSource (players (host w) (player self))));
      exec_with H; reflexivity.
  - now apply no.
  - now apply no.
  - apply no. destruct (isChromecastAPIAvailable_truthy w) as (v & E & _).
    unfold bind. now rewrite E.
  - apply no. destruct (isChromecastConnected_never_throws w) as (v & E).
    unfold bind. now rewrite E.
  - apply no. unfold bind, ret. rewrite settleRequest_eq.
    destruct (requests (context w)); [reflexivity|]. now destruct s.
  - apply no. unfold playerReady. exec.
    match goal with |- context [run_ready p ?q ?w1] =>
      destruct (run_ready_Ok p q w1) as [l E]; rewrite E end.
    reflexivity.
  - apply no. unfold playerDispose. exec.
    now apply run_hooks_frame.
  - now apply no.
Qed.

(** C7: the connection flag is monotone.  It is false when the class is
    loaded; no operation resets it, whether one operation or any sequence
    of them (construction, session-state and cast-state events, the cast
    menu, settlement of a request, ready callbacks, disposal, changes made
    by the collaborators); and an operation that sets it is a successful
    connect: SESSION_RESUMED being processed, or a session request being
    fulfilled. *)
Theorem connection_flag_monotone :
  (forall e, flag (initial e) = false)
  /\ (forall o w, flag w = true -> flag (world_of (run o w)) = true)
  /\ (forall os w, flag w = true -> flag (run_all os w) = true)
  /\ (forall o w, flag w = false -> flag (world_of (run o w)) = true ->
                  connects o w).
Proof.
  assert (one : forall o w, flag w = true -> flag (world_of (run o w)) = true).
  { intros o w F. destruct (run_flag o w) as [E | [E _]]; congruence. }
  repeat split.
  - exact one.
  - intros os. induction os as [|o os IH]; intros w F; cbn [run_all]; auto.
  - intros o w F T. destruct (run_flag o w) as [E | [_ C]]; [congruence | exact C].
Qed.

Lemma connection_flag_monotone_witness :
  flag (world_of (run (New 0) resumed_world)) = true /\
  flag (run_all [OnSessionStateChange me (session_event SESSION_ENDED);
                 OnCastStateChange me {| ev_castState := VStr "NO_DEVICES_AVAILABLE" |};
                 PlayerReady 0;
                 PlayerDispose 0;
                 External another_environment;
                 New 1]
          (world_of (run (New 0) resumed_world))) = true /\
  connects (New 0) resumed_world.
Proof.
  destruct connection_flag_monotone as (_ & _ & A & O).
  split; [reflexivity|]. split.
  - apply A. reflexivity.
  - apply O; reflexivity.
Defined.

(** C8, as stated, fails: the session-state handler given SESSION_RESUMED
    while [getCurrentSession()] returns [null] ends in a TypeError. *)
Lemma resumed_without_session_throws :
  run (OnSessionStateChange me (session_event SESSION_RESUMED)) orphan_world =
  Throw (TypeError "castSession is null") orphan_world.
Proof. reflexivity. Qed.

(** C8, amended: where the SDK is loaded, an operation throws exactly when
    it processes SESSION_RESUMED (the handler given that state, or the
    constructor finding it as the current session state) while there is no
    current session; every other operation on every input runs to its end.
    A session request that is rejected is swallowed: the handler returns
    and the promise of [.then] is resolved. *)
Theorem operations_throw_only_resuming_without_session (o : Op) (w : World) :
  loaded w ->
  (throws (run o w) = true <->
   resumes o w /\ currentSession (context w) = None)
  /\ (forall reason,
        exists w', settleRequest (Rejected reason) w = Ok None w' \/
                   settleRequest (Rejected reason) w = Ok (Some Resolved) w').
Proof.
  intros L. split; [now apply run_throws|].
  intros reason. rewrite settleRequest_eq.
  destruct (requests (context w)); eauto.
Qed.

Lemma operations_throw_only_resuming_without_session_witness :
  loaded orphan_world /\
  throws (run (New 0) orphan_world) = true /\
  loaded resumed_world /\
  throws (run (New 0) resumed_world) = false.
Proof.
  assert (L : loaded orphan_world) by (exists 3; reflexivity).
  assert (L' : loaded resumed_world) by (exists 3; reflexivity).
  split; [exact L|]. split.
  - apply (proj1 (operations_throw_only_resuming_without_session (New 0) orphan_world L)).
    split; reflexivity.
  - split; [exact L'|].
    destruct (throws (run (New 0) resumed_world)) eqn:T; [|reflexivity].
    apply (proj1 (operations_throw_only_resuming_without_session (New 0) resumed_world L'))
      in T.
    destruct T as [_ T]. discriminate T.
Defined.

(** ** What each operation calls *)

Lemma _onSessionStateChange_delta
    (self : Instance) (event : SessionStateEvent) (w : World) :
  calls (world_of (_onSessionStateChange self event w)) =
  calls w ++ handled self event w.
Proof.
  unfold handled, reload_calls.
  destruct (window_cast (window w)) eqn:H.
  - rewrite _onSessionStateChange_loaded by (now exists r).
    destruct (strict_eq _ _).
    { rewrite _reloadTech_Ok. exec. now rewrite <- app_assoc. }
    destruct (strict_eq _ _); [|now rewrite app_nil_r].
    unfold resumed.
    destruct (currentSession (context w)) as [session|];
      [|now rewrite app_nil_r].
    destruct (getMediaSession session) as [ms|];
      [destruct (ToBoolean (media ms))|];
      rewrite _reloadTech_Ok; exec; unfold connected; exec;
      now rewrite <- app_assoc.
  - rewrite _onSessionStateChange_unloaded by exact H.
    now rewrite app_nil_r.
Qed.

(** The handles in full: what is created, with what, and what is kept. *)
Lemma acquire_handles_eq (w : World) :
  loaded w ->
  let rp := remotePlayer (statics w) in
  let rc := remotePlayerController (statics w) in
  let rp' := if ToBoolean rp then rp else VObj (next_ref w) in
  let n := if ToBoolean rp then next_ref w else S (next_ref w) in
  let rc' := if ToBoolean rc then rc else VObj n in
  exists w',
    acquire_handles w = Ok tt w'
    /\ calls w' =
         calls w ++
         (if ToBoolean rp then [] else [NewRemotePlayer (next_ref w)]) ++
         (if ToBoolean rc then [] else [NewRemotePlayerController n rp'])
    /\ remotePlayer (statics w') = rp'
    /\ remotePlayerController (statics w') = rc'.
Proof.
  intros [c H]. unfold acquire_handles. exec_with H.
  destruct (ToBoolean (remotePlayer (statics w))) eqn:E1;
    exec_with H;
    destruct (ToBoolean (remotePlayerController (statics w))) eqn:E2;
    exec_with H;
    eexists; (split; [reflexivity|]); exec; repeat split;
    rewrite <- ?app_assoc, ?app_nil_r; reflexivity.
Qed.

Lemma announced_host (self : Instance) (w : World) :
  loaded w ->
  players (host (announced self w)) = players (host w)
  /\ next_ref (announced self w) = S (next_ref w).
Proof.
  intros [c H].
  unfold announced, announce, _addCastContextEventListeners,
    _notifyPlayerOfDevicesAvailabilityChange, hasAvailableDevices.
  destruct (castState (context w)) eqn:Ec;
    repeat (exec_with H; rewrite ?Ec); split; reflexivity.
Qed.

Lemma handled_announced (self : Instance) (event : SessionStateEvent) (w : World) :
  loaded w ->
  handled self event (announced self w) = handled self event w.
Proof.
  intros L. unfold handled, reload_calls.
  destruct (announced_loaded self w L) as (W & _ & C & _).
  destruct (announced_host self w L) as [P _].
  now rewrite W, C, P.
Qed.

Lemma constructor_world_of (p : player_id) (w : World) :
  loaded w ->
  let self := {| player := p; inst_id := next_ref w |} in
  let r := _onSessionStateChange self
             (session_event (sessionState (context w))) (announced self w) in
  world_of (constructor p w) =
  if throws r then world_of r else world_of (acquire_handles (world_of r)).
Proof.
  intros L self r. rewrite (constructor_loaded p w L). fold self. fold r.
  destruct r as [[] w2|e w2]; cbn [world_of throws]; [|reflexivity].
  now destruct (acquire_handles w2).
Qed.

Lemma constructor_delta (p : player_id) (w : World) :
  exists l, calls (world_of (constructor p w)) = calls w ++ l /\ delta (New p) w l.
Proof.
  cbn [delta]. destruct (window_cast (window w)) eqn:H.
  - assert (L : loaded w) by now exists r.
    set (self := {| player := p; inst_id := next_ref w |}).
    rewrite (constructor_world_of p w L). fold self.
    destruct (announced_loaded self w L) as (W & _ & _ & C).
    pose proof (_onSessionStateChange_delta self
                  (session_event (sessionState (context w))) (announced self w)) as D.
    pose proof (_onSessionStateChange_window self
                  (session_event (sessionState (context w))) (announced self w)) as W2.
    rewrite (handled_announced self _ w L), C in D.
    destruct (_onSessionStateChange self _ (announced self w)) as [[] w2|e w2];
      cbn [world_of throws] in *.
    + assert (L2 : loaded w2) by (unfold loaded in *; now rewrite W2, W).
      destruct (acquire_handles_eq w2 L2) as (w3 & E & K & _).
      rewrite E. cbn [world_of]. rewrite K, D.
      eexists. split.
      * rewrite <- !app_assoc. reflexivity.
      * eexists. split; [reflexivity|].
        destruct (ToBoolean (remotePlayer (statics w2)));
          destruct (ToBoolean (remotePlayerController (statics w2))); reflexivity.
    + rewrite D. eexists. split.
      * rewrite <- !app_assoc. reflexivity.
      * exists []. now rewrite app_nil_r.
  - rewrite constructor_unloaded by exact H. exists []. now rewrite app_nil_r.
Qed.

Lemma run_ready_commands (p : player_id) (q : list (player_id * ReadyCallback))
    (w : World) :
  exists l, run_ready p q w = Ok tt (with_calls (calls w ++ l) w)
            /\ forallb is_command l = true.
Proof.
  revert w. induction q as [|[p' fn] q IH]; intros w.
  - exists []. cbn. unfold ret, with_calls. rewrite app_nil_r.
    split; [now destruct w | reflexivity].
  - cbn [run_ready]. unfold bind at 1.
    destruct (Nat.eqb p' p).
    + unfold ready_callback. exec.
      destruct (ToBoolean (wasPlaying fn)); exec;
      match goal with |- context [run_ready p q ?w1] =>
        destruct (IH w1) as (l & E & F); rewrite E end;
      exec; eexists; (split; [rewrite <- !app_assoc; reflexivity|]);
      cbn; exact F.
    + exec. apply IH.
Qed.

Lemma run_hooks_removes_only (p : player_id) (hs : list (player_id * Instance))
    (w : World) :
  exists l, calls (world_of (run_hooks p hs w)) = calls w ++ l
            /\ forallb is_remove l = true.
Proof.
  revert w. induction hs as [|[p' self] hs IH]; intros w.
  - exists []. cbn. now rewrite app_nil_r.
  - cbn [run_hooks]. unfold bind.
    destruct (Nat.eqb p' p); [|exec; apply IH].
    unfold _removeCastContextEventListeners.
    destruct (window_cast (window w)) eqn:H; exec_with H.
    + match goal with |- context [run_hooks p hs ?w1] =>
        destruct (IH w1) as (l & E & F) end.
      revert E. exec. intros E. rewrite E.
      eexists. split; [rewrite <- !app_assoc; reflexivity|]. cbn. exact F.
    + exists []. now rewrite app_nil_r.
Qed.

(** What every operation adds to the log. *)
Lemma run_delta (o : Op) (w : World) :
  exists l, calls (world_of (run o w)) = calls w ++ l /\ delta o w l.
Proof.
  assert (nothing : forall w' : World, calls w' = calls w ->
            exists l, calls w' = calls w ++ l /\ l = []).
  { intros w' E. exists []. now rewrite app_nil_r. }
  destruct o as [p | self event | self event | self v | self | self | self
                | | | s | p | p | e];
    cbn [run].
  - assert (E : world_of ((constructor p;; ret tt) w) = world_of (constructor p w))
      by (unfold bind, ret; now destruct (constructor p w)).
    rewrite E. apply constructor_delta.
  - eexists. split; [apply _onSessionStateChange_delta | reflexivity].
  - cbn [delta]. unfold _onCastStateChange.
    destruct (window_cast (window w)) eqn:H.
    + destruct (hasAvailableDevices_bool self (ev_castState event) w) as [b E];
        [now exists r|].
      rewrite (_notify_trigger _ _ _ _ E). exec. eauto.
    + unfold _notifyPlayerOfDevicesAvailabilityChange, hasAvailableDevices.
      destruct (ToBoolean (ev_castState event)); exec_with H;
        exists []; now rewrite app_nil_r.
  - apply nothing. unfold bind, ret.
    destruct (hasAvailableDevices_frame self v w) as [W _].
    destruct (hasAvailableDevices self v w); cbn in *; now subst.
  - cbn [delta]. unfold openCastMenu. exec.
    destruct (ToBoolean (currentSource (players (host w) (player self))));
      exec; [|exists []; rewrite app_nil_r; auto].
    destruct (window_cast (window w)) eqn:H; exec_with H.
    + eexists. split; [reflexivity|auto].
    + exists []. rewrite app_nil_r. auto.
  - now apply nothing.
  - now apply nothing.
  - apply nothing. destruct (isChromecastAPIAvailable_truthy w) as (v & E & _).
    unfold bind. now rewrite E.
  - apply nothing. destruct (isChromecastConnected_never_throws w) as (v & E).
    unfold bind. now rewrite E.
  - cbn [delta]. unfold bind, ret. rewrite settleRequest_eq.
    destruct (requests (context w)) as [|self rest] eqn:R.
    + destruct s; exists []; now rewrite app_nil_r.
    + destruct s; [|exists []; now rewrite app_nil_r].
      rewrite _reloadTech_Ok. exec. unfold connected, settled. exec.
      eexists. split; [rewrite <- !app_assoc; reflexivity | reflexivity].
  - cbn [delta]. unfold playerReady. exec.
    match goal with |- context [run_ready p ?q ?w1] =>
      destruct (run_ready_commands p q w1) as (l & E & F); rewrite E end.
    exec. eauto.
  - cbn [delta]. unfold playerDispose. exec. apply run_hooks_removes_only.
  - now apply nothing.
Qed.

(** ** Events and commands, operation by operation *)

Lemma events_app (name : string) (l l' : list Call) :
  events name (l ++ l') = events name l + events name l'.
Proof. unfold events. now rewrite filter_app, length_app. Qed.

Lemma filter_none {A} (f g : A -> bool) (l : list A) :
  forallb f l = true -> (forall a, f a = true -> g a = false) ->
  filter g l = [].
Proof.
  intros F N. induction l as [|a l IH]; [reflexivity|].
  cbn in *. apply andb_true_iff in F. destruct F as [Fa Fl].
  rewrite (N a Fa). now apply IH.
Qed.

Lemma filter_all {A} (f g : A -> bool) (l : list A) :
  forallb f l = true -> (forall a, f a = true -> g a = true) ->
  filter g l = l.
Proof.
  intros F N. induction l as [|a l IH]; [reflexivity|].
  cbn in *. apply andb_true_iff in F. destruct F as [Fa Fl].
  rewrite (N a Fa). f_equal. now apply IH.
Qed.

Lemma resumed_not_ended (v : value) :
  strict_eq v (SessionState_value SESSION_RESUMED) = true ->
  strict_eq v (SessionState_value SESSION_ENDED) = false.
Proof. intros E. apply strict_eq_str in E. now subst. Qed.

Lemma handled_connected (self : Instance) (event : SessionStateEvent) (w : World) :
  events "chromecastConnected" (handled self event w) =
  if loaded_b w
     && strict_eq (ev_sessionState event) (SessionState_value SESSION_RESUMED)
     && has_session w
  then 1 else 0.
Proof.
  unfold handled, loaded_b, has_session, reload_calls.
  destruct (window_cast (window w)); [|reflexivity].
  destruct (strict_eq _ (SessionState_value SESSION_RESUMED)) eqn:R.
  - rewrite (resumed_not_ended _ R).
    now destruct (currentSession (context w)).
  - now destruct (strict_eq _ (SessionState_value SESSION_ENDED)).
Qed.

Lemma handled_disconnected (self : Instance) (event : SessionStateEvent) (w : World) :
  events "chromecastDisconnected" (handled self event w) =
  if loaded_b w
     && strict_eq (ev_sessionState event) (SessionState_value SESSION_ENDED)
  then 1 else 0.
Proof.
  unfold handled, loaded_b, reload_calls.
  destruct (window_cast (window w)); [|reflexivity].
  destruct (strict_eq _ (SessionState_value SESSION_ENDED)); [reflexivity|].
  destruct (strict_eq _ (SessionState_value SESSION_RESUMED)); [|reflexivity].
  now destruct (currentSession (context w)).
Qed.

Lemma handled_paired (self : Instance) (event : SessionStateEvent) (w : World) :
  filter is_command (handled self event w) = [] /\
  length (filter is_src (handled self event w)) =
  length (filter is_ready (handled self event w)).
Proof.
  unfold handled, reload_calls.
  destruct (window_cast (window w)); [|now split].
  destruct (strict_eq _ _); [now split|].
  destruct (strict_eq _ _); [|now split].
  now destruct (currentSession (context w)).
Qed.

Lemma availability_event_other (b : bool) (name : string) :
  name = "chromecastConnected" \/ name = "chromecastDisconnected" ->
  String.eqb (availability_event b) name = false.
Proof. intros [E | E]; subst; now destruct b. Qed.

(** The events of a log extension, from what the operation adds. *)
Lemma delta_events (name : string) (o : Op) (w : World) (l : list Call) :
  name = "chromecastConnected" \/ name = "chromecastDisconnected" ->
  delta o w l ->
  events name l =
  match o with
  | New p =>
      events name
        (handled {| player := p; inst_id := next_ref w |}
           (session_event (sessionState (context w))) w)
  | OnSessionStateChange self event => events name (handled self event w)
  | SettleRequest Fulfilled =>
      match requests (context w) with
      | [] => 0
      | _ :: _ => if String.eqb "chromecastConnected" name then 1 else 0
      end
  | _ => 0
  end.
Proof.
  intros N D.
  destruct o as [p | self event | self event | self v | self | self | self
                | | | s | p | p | e];
    cbn [delta] in D; try (subst l; reflexivity).
  - unfold handled in *.
    destruct (window_cast (window w)); [|now subst].
    destruct D as (created & E & F). subst l.
    rewrite !events_app. unfold events at 1 3.
    rewrite (filter_none is_new (is_event name) created F)
      by (now intros []).
    cbn. rewrite (availability_event_other _ _ N). cbn. lia.
  - destruct (window_cast (window w)); [|now subst].
    destruct D as [b E]. subst l. unfold events. cbn.
    now rewrite (availability_event_other _ _ N).
  - destruct D; subst l; reflexivity.
  - destruct s, (requests (context w)); subst l; try reflexivity.
    unfold events, reload_calls. cbn.
    destruct N; subst name; reflexivity.
  - unfold events.
    now rewrite (filter_none is_command (is_event name) l D) by (now intros []).
  - unfold events.
    now rewrite (filter_none is_remove (is_event name) l D) by (now intros []).
Qed.

Lemma _onSessionStateChange_flag_eq
    (self : Instance) (event : SessionStateEvent) (w : World) :
  flag (world_of (_onSessionStateChange self event w)) =
  flag w
  || (loaded_b w
      && strict_eq (ev_sessionState event) (SessionState_value SESSION_RESUMED)
      && has_session w).
Proof.
  unfold loaded_b, has_session.
  destruct (window_cast (window w)) eqn:H.
  - rewrite _onSessionStateChange_loaded by (now exists r).
    destruct (strict_eq _ (SessionState_value SESSION_RESUMED)) eqn:R.
    + rewrite (resumed_not_ended _ R), resumed_flag.
      destruct (currentSession (context w)); cbn [andb];
        [now rewrite orb_true_r | now rewrite orb_false_r].
    + cbn [andb]. rewrite orb_false_r.
      destruct (strict_eq (ev_sessionState event) (SessionState_value SESSION_ENDED));
        [now rewrite _reloadTech_Ok | reflexivity].
  - rewrite _onSessionStateChange_unloaded by exact H. cbn [andb world_of].
    now rewrite orb_false_r.
Qed.

(** The flag after one operation. *)
Lemma run_flag_eq (o : Op) (w : World) :
  flag (world_of (run o w)) = flag w || connects_b o w.
Proof.
  destruct (connects_b o w) eqn:C.
  - rewrite orb_true_r.
    destruct o as [p | self event | self event | self v | self | self | self
                  | | | s | p | p | e];
      cbn [connects_b] in C; try discriminate; cbn [run].
    + assert (L : loaded w).
      { unfold loaded_b, loaded in *. destruct (window_cast (window w)); eauto.
        discriminate. }
      assert (E : world_of ((constructor p;; ret tt) w) = world_of (constructor p w))
        by (unfold bind, ret; now destruct (constructor p w)).
      rewrite E. destruct (constructor_world p w L) as [_ F]. rewrite F.
      rewrite _onSessionStateChange_flag_eq.
      set (self := {| player := p; inst_id := next_ref w |}).
      destruct (announced_loaded self w L) as (W & _ & K & _).
      unfold loaded_b, has_session. rewrite W, K.
      unfold loaded_b, has_session, SessionState_eqb in C.
      cbn [session_event ev_sessionState]. rewrite C. apply orb_true_r.
    + rewrite _onSessionStateChange_flag_eq, C. apply orb_true_r.
    + destruct s; [|discriminate]. unfold bind, ret. rewrite settleRequest_eq.
      destruct (requests (context w)); [discriminate|].
      now rewrite _reloadTech_Ok.
  - rewrite orb_false_r.
    destruct (run_flag o w) as [F | [F K]]; [exact F|].
    destruct o as [p | self event | self event | self v | self | self | self
                  | | | s | p | p | e];
      cbn [connects_b] in C; cbn [run] in *;
      try (destruct K as [[] | [K _]]; discriminate K).
    + assert (E : world_of ((constructor p;; ret tt) w) = world_of (constructor p w))
        by (unfold bind, ret; now destruct (constructor p w)).
      rewrite E in *.
      destruct (window_cast (window w)) eqn:H.
      * assert (L : loaded w) by now exists r.
        destruct (constructor_world p w L) as [_ F']. rewrite F'.
        rewrite _onSessionStateChange_flag_eq.
        set (self := {| player := p; inst_id := next_ref w |}).
        destruct (announced_loaded self w L) as (W & S & K' & _).
        unfold loaded_b, has_session. rewrite W, K'.
        unfold loaded_b, has_session, SessionState_eqb in C. rewrite H in *.
        cbn [session_event ev_sessionState]. rewrite C.
        unfold flag. rewrite S. apply orb_false_r.
      * now rewrite constructor_unloaded by exact H.
    + rewrite _onSessionStateChange_flag_eq, C. apply orb_false_r.
    + destruct K as [[] | [K N]]. inversion K; subst.
      destruct (requests (context w)); [now elim N | discriminate].
Qed.

(** X5: 'chromecastConnected' is triggered exactly when a connect is
    recorded.  In every operation the event is triggered once if the
    operation processes SESSION_RESUMED with the SDK loaded and a current
    session, or fulfils a pending session request, and not at all
    otherwise; and the connection flag afterwards is the flag before, or
    true in those same cases. *)
Theorem connect_announced (o : Op) (w : World) :
  events "chromecastConnected" (calls (world_of (run o w))) =
    events "chromecastConnected" (calls w) + (if connects_b o w then 1 else 0)
  /\ flag (world_of (run o w)) = flag w || connects_b o w.
Proof.
  split; [|apply run_flag_eq].
  destruct (run_delta o w) as (l & E & D). rewrite E, events_app. f_equal.
  rewrite (delta_events "chromecastConnected" o w l (or_introl eq_refl) D).
  destruct o as [p | self event | self event | self v | self | self | self
                | | | s | p | p | e];
    cbn [connects_b]; try reflexivity.
  - apply handled_connected.
  - apply handled_connected.
  - destruct s; [|reflexivity]. now destruct (requests (context w)).
Qed.

(** X6: 'chromecastDisconnected' is triggered exactly when SESSION_ENDED
    is processed: once in the session-state handler given that state, or
    in the constructor finding it as the current session state, with the
    SDK loaded, and in no other operation. *)
Theorem disconnect_announced (o : Op) (w : World) :
  events "chromecastDisconnected" (calls (world_of (run o w))) =
  events "chromecastDisconnected" (calls w) + (if ends_b o w then 1 else 0).
Proof.
  destruct (run_delta o w) as (l & E & D). rewrite E, events_app. f_equal.
  rewrite (delta_events "chromecastDisconnected" o w l (or_intror eq_refl) D).
  destruct o as [p | self event | self event | self v | self | self | self
                | | | s | p | p | e];
    cbn [ends_b]; try reflexivity.
  - apply handled_disconnected.
  - apply handled_disconnected.
  - destruct s; [|reflexivity]. now destruct (requests (context w)).
Qed.

Lemma delta_commands (o : Op) (w : World) (l : list Call) :
  delta o w l ->
  match o with
  | PlayerReady _ => filter (fun c => negb (is_command c)) l = []
  | _ => filter is_command l = []
  end
  /\ length (filter is_src l) = length (filter is_ready l).
Proof.
  intros D.
  destruct o as [p | self event | self event | self v | self | self | self
                | | | s | p | p | e];
    cbn [delta] in D; try (subst l; now split).
  - destruct (window_cast (window w)); [|subst l; now split].
    destruct D as (created & E & F). subst l.
    destruct (handled_paired {| player := p; inst_id := next_ref w |}
                (session_event (sessionState (context w))) w) as [C P].
    rewrite !filter_app, !length_app, C, P.
    rewrite (filter_none is_new is_command created F) by (now intros []).
    rewrite (filter_none is_new is_src created F) by (now intros []).
    rewrite (filter_none is_new is_ready created F) by (now intros []).
    now split.
  - subst l. apply handled_paired.
  - destruct (window_cast (window w)); [|subst l; now split].
    destruct D as [b E]. subst l. now split.
  - destruct D; subst l; now split.
  - destruct s, (requests (context w)); subst l; now split.
  - rewrite (filter_none is_command (fun c => negb (is_command c)) l D)
      by (intros a Ha; now rewrite Ha).
    rewrite (filter_none is_command is_src l D) by (now intros []).
    rewrite (filter_none is_command is_ready l D) by (now intros []).
    now split.
  - rewrite (filter_none is_remove is_command l D) by (now intros []).
    rewrite (filter_none is_remove is_src l D) by (now intros []).
    rewrite (filter_none is_remove is_ready l D) by (now intros []).
    now split.
Qed.

(** X7: the player is played, paused or sought only from a ready callback:
    no other operation makes such a call, and the ready callbacks make no
    call of another kind.  In every operation each [src] comes with one
    [ready]: a reload never re-applies the sources without asking to be
    called back. *)
Theorem playback_commands_only_when_ready (o : Op) (w : World) :
  match o with
  | PlayerReady _ =>
      filter (fun c => negb (is_command c)) (calls (world_of (run o w))) =
      filter (fun c => negb (is_command c)) (calls w)
  | _ =>
      filter is_command (calls (world_of (run o w))) =
      filter is_command (calls w)
  end
  /\ length (filter is_src (calls (world_of (run o w)))) +
     length (filter is_ready (calls w)) =
     length (filter is_ready (calls (world_of (run o w)))) +
     length (filter is_src (calls w)).
Proof.
  destruct (run_delta o w) as (l & E & D). rewrite E.
  destruct (delta_commands o w l D) as [C P].
  rewrite !filter_app, !length_app, P. split; [|lia].
  destruct o; rewrite C; apply app_nil_r.
Qed.

(** ** The registry of listeners *)

Lemma Instance_eqb_eq (a b : Instance) : Instance_eqb a b = true <-> a = b.
Proof.
  unfold Instance_eqb. rewrite andb_true_iff, !Nat.eqb_eq.
  destruct a, b; cbn. split; [intros []; now subst | now inversion 1].
Qed.

Lemma registered_eqb_eq (x : CastContextEventType * Listener)
    (t : CastContextEventType) (l : Listener) :
  CastContextEventType_eqb (fst x) t && Listener_eqb (snd x) l = true <->
  x = (t, l).
Proof.
  destruct x as [t' l']. cbn [fst snd]. rewrite andb_true_iff. split.
  - intros [Et El]. destruct t', t; try discriminate;
      destruct l', l; try discriminate; cbn in El;
      apply Instance_eqb_eq in El; now subst.
  - inversion 1; subst. destruct t, l; cbn; now rewrite ?Instance_eqb_refl.
Qed.

Lemma _removeCastContextEventListeners_listeners (self : Instance) (w : World) :
  loaded w ->
  forall x,
    In x (listeners (context (world_of (_removeCastContextEventListeners self w)))) <->
    In x (listeners (context w)) /\
    x <> (SESSION_STATE_CHANGED, SessionListener self) /\
    x <> (CAST_STATE_CHANGED, CastListener self).
Proof.
  intros L x.
  destruct (_removeCastContextEventListeners_loaded self w L) as (w' & E & _ & F).
  rewrite E. cbn [world_of]. rewrite F, !filter_In, !negb_true_iff.
  rewrite <- !not_true_iff_false, !registered_eqb_eq. tauto.
Qed.

Lemma _removeCastContextEventListeners_host (self : Instance) (w : World) :
  host (world_of (_removeCastContextEventListeners self w)) = host w
  /\ incl (listeners (context (world_of (_removeCastContextEventListeners self w))))
          (listeners (context w)).
Proof.
  unfold _removeCastContextEventListeners.
  destruct (window_cast (window w)) eqn:H; exec_with H;
    (split; [reflexivity|]); intros x I; [|exact I].
  apply filter_In in I. destruct I as [I _].
  apply filter_In in I. tauto.
Qed.

Lemma run_hooks_host (p : player_id) (hs : list (player_id * Instance)) (w : World) :
  host (world_of (run_hooks p hs w)) = host w
  /\ incl (listeners (context (world_of (run_hooks p hs w))))
          (listeners (context w)).
Proof.
  revert w. induction hs as [|[p' self] hs IH]; intros w.
  - cbn. split; [reflexivity | apply incl_refl].
  - cbn [run_hooks]. unfold bind.
    destruct (Nat.eqb p' p); [|exec; apply IH].
    destruct (_removeCastContextEventListeners_host self w) as [Hh Hl].
    destruct (_removeCastContextEventListeners self w) as [[] w1|e w1];
      cbn [world_of] in *; [|auto].
    destruct (IH w1) as [Hh1 Hl1]. split; [congruence|].
    eapply incl_tran; eassumption.
Qed.

(** Which listeners are left when the hooks of [p] have run. *)
Lemma run_hooks_listeners (p : player_id) (hs : list (player_id * Instance))
    (w : World) :
  loaded w ->
  forall x,
    In x (listeners (context (world_of (run_hooks p hs w)))) <->
    In x (listeners (context w)) /\
    forall s, In (p, s) hs ->
      x <> (SESSION_STATE_CHANGED, SessionListener s) /\
      x <> (CAST_STATE_CHANGED, CastListener s).
Proof.
  revert w. induction hs as [|[p' self] hs IH]; intros w L x.
  - cbn. split; [intros I; split; [exact I | contradiction] | tauto].
  - cbn [run_hooks]. unfold bind.
    destruct (Nat.eqb p' p) eqn:Ep.
    + apply Nat.eqb_eq in Ep. subst p'.
      pose proof (_removeCastContextEventListeners_listeners self w L x) as R.
      destruct (_removeCastContextEventListeners_loaded self w L) as (w1 & E & W & _).
      rewrite E in *. cbn [world_of] in R.
      assert (L1 : loaded w1) by (unfold loaded in *; now rewrite W).
      rewrite (IH w1 L1 x), R. split.
      * intros [[I N] A]. split; [exact I|].
        intros s [Es | Is]; [inversion Es; subst; exact N | now apply A].
      * intros [I A]. split; [split; [exact I | apply A; now left]|].
        intros s Is. apply A. now right.
    + exec. rewrite (IH w L x). apply Nat.eqb_neq in Ep. split.
      * intros [I A]. split; [exact I|].
        intros s [Es | Is]; [inversion Es; congruence | now apply A].
      * intros [I A]. split; [exact I|]. intros s Is. apply A. now right.
Qed.

(** X8: in a world whose registry is in order, disposing a player removes
    exactly the listeners of the instances bound to that player: a
    listener is registered afterwards iff it was registered before and its
    instance belongs to another player.  The teardown does not throw and
    leaves the ['dispose'] handlers as they are. *)
Theorem dispose_removes_exactly (p : player_id) (w : World) :
  loaded w ->
  well_registered w ->
  throws (playerDispose p w) = false
  /\ disposeHooks (host (world_of (playerDispose p w))) = disposeHooks (host w)
  /\ forall t l,
       In (t, l) (listeners (context (world_of (playerDispose p w)))) <->
       In (t, l) (listeners (context w)) /\ player (listener_instance l) <> p.
Proof.
  intros L [R Hk]. unfold playerDispose. exec.
  split; [now apply run_hooks_frame|].
  split; [now rewrite (proj1 (run_hooks_host p (disposeHooks (host w)) w))|].
  intros t l. rewrite (run_hooks_listeners p _ w L). split.
  - intros [I A]. split; [exact I|]. intros Ep.
    destruct (R t l I) as [Shape Hook]. rewrite Ep in Hook.
    destruct (A _ Hook) as [N1 N2]. destruct Shape; contradiction.
  - intros [I N]. split; [exact I|]. intros s Is.
    apply Hk in Is. subst p.
    split; intros E; inversion E; subst; now apply N.
Qed.

Lemma constructor_registry (p : player_id) (w : World) :
  let self := {| player := p; inst_id := next_ref w |} in
  let w' := world_of (constructor p w) in
  (listeners (context w') = listeners (context w) /\
   disposeHooks (host w') = disposeHooks (host w))
  \/ (listeners (context w') =
        listeners (context w) ++
        [(SESSION_STATE_CHANGED, SessionListener self);
         (CAST_STATE_CHANGED, CastListener self)] /\
      disposeHooks (host w') = disposeHooks (host w) ++ [(p, self)]).
Proof.
  intros self w'. subst w'.
  destruct (window_cast (window w)) eqn:H.
  - right. assert (L : loaded w) by now exists r.
    rewrite (constructor_world_of p w L). fold self.
    destruct (announced_registry self w L) as [R D].
    destruct (_onSessionStateChange_registry self
                (session_event (sessionState (context w))) (announced self w))
      as [C2 D2].
    destruct (_onSessionStateChange self _ (announced self w)) as [[] w2|e w2];
      cbn [world_of throws] in *.
    + destruct (acquire_handles_registry w2) as [C3 D3].
      now rewrite C3, D3, C2, D2.
    + now rewrite C2, D2.
  - left. now rewrite constructor_unloaded by exact H.
Qed.

(** What one operation does to the registered listeners and to the
    ['dispose'] handlers. *)
Lemma run_registry (o : Op) (w : World) :
  let w' := world_of (run o w) in
  match o with
  | New p =>
      let self := {| player := p; inst_id := next_ref w |} in
      (listeners (context w') = listeners (context w) /\
       disposeHooks (host w') = disposeHooks (host w))
      \/ (listeners (context w') =
            listeners (context w) ++
            [(SESSION_STATE_CHANGED, SessionListener self);
             (CAST_STATE_CHANGED, CastListener self)] /\
          disposeHooks (host w') = disposeHooks (host w) ++ [(p, self)])
  | PlayerDispose _ =>
      incl (listeners (context w')) (listeners (context w)) /\
      disposeHooks (host w') = disposeHooks (host w)
  | _ =>
      listeners (context w') = listeners (context w) /\
      disposeHooks (host w') = disposeHooks (host w)
  end.
Proof.
  destruct o as [p | self event | self event | self v | self | self | self
                | | | s | p | p | e];
    cbn [run]; cbv zeta.
  - assert (E : world_of ((constructor p;; ret tt) w) = world_of (constructor p w))
      by (unfold bind, ret; now destruct (constructor p w)).
    rewrite E. apply constructor_registry.
  - destruct (_onSessionStateChange_registry self event w) as [C D].
    now rewrite C, D.
  - unfold _onCastStateChange, _notifyPlayerOfDevicesAvailabilityChange, bind.
    destruct (hasAvailableDevices_frame self (ev_castState event) w) as [W _].
    destruct (hasAvailableDevices self (ev_castState event) w) as [b w1|e w1];
      cbn [world_of] in W; subst w1; [|now split].
    destruct (ToBoolean b); exec; now split.
  - unfold bind, ret.
    destruct (hasAvailableDevices_frame self v w) as [W _].
    destruct (hasAvailableDevices self v w); cbn in *; now subst.
  - unfold openCastMenu. exec.
    destruct (ToBoolean (currentSource (players (host w) (player self))));
      exec; [|now split].
    destruct (window_cast (window w)) eqn:H; exec_with H; now split.
  - now split.
  - now split.
  - destruct (isChromecastAPIAvailable_truthy w) as (v & E & _).
    unfold bind. now rewrite E.
  - destruct (isChromecastConnected_never_throws w) as (v & E).
    unfold bind. now rewrite E.
  - unfold bind, ret. rewrite settleRequest_eq.
    destruct (requests (context w)) as [|self rest]; [now split|].
    destruct s; [rewrite _reloadTech_Ok|]; now split.
  - unfold playerReady. exec.
    match goal with |- context [run_ready p ?q ?w1] =>
      destruct (run_ready_Ok p q w1) as [l E]; rewrite E end.
    now split.
  - unfold playerDispose. exec.
    destruct (run_hooks_host p (disposeHooks (host w)) w) as [Hh Hl].
    split; [exact Hl | now rewrite Hh].
  - now split.
Qed.

Lemma well_registered_initial (e : Environment) : well_registered (initial e).
Proof. split; intros ? ? []. Qed.

Lemma well_registered_run (o : Op) (w : World) :
  well_registered w -> well_registered (world_of (run o w)).
Proof.
  intros [R Hk]. pose proof (run_registry o w) as F. cbv zeta in F.
  assert (same : listeners (context (world_of (run o w))) = listeners (context w) /\
                 disposeHooks (host (world_of (run o w))) = disposeHooks (host w) ->
                 well_registered (world_of (run o w))).
  { intros [El Eh]. unfold well_registered. now rewrite El, Eh. }
  destruct o; try (now apply same).
  - destruct F as [F | [El Eh]]; [now apply same|].
    unfold well_registered. rewrite El, Eh. split.
    + intros t l I. apply in_app_or in I. destruct I as [I | I].
      * destruct (R t l I) as [Sh Hook]. split; [exact Sh|].
        apply in_or_app. now left.
      * destruct I as [I | [I | []]]; inversion I; subst; cbn;
          (split; [auto | apply in_or_app; right; now left]).
    + intros q s I. apply in_app_or in I. destruct I as [I | [I | []]].
      * now apply Hk.
      * now inversion I.
  - destruct F as [Incl Eh]. unfold well_registered. rewrite Eh.
    split; [|exact Hk]. intros t l I. apply R. now apply Incl.
Qed.

Lemma well_registered_run_all (os : list Op) (w : World) :
  well_registered w -> well_registered (run_all os w).
Proof.
  revert w. induction os as [|o os IH]; intros w I; cbn [run_all]; [exact I|].
  now apply IH, well_registered_run.
Qed.

Lemma constructor_registers (p : player_id) (w : World) :
  loaded w ->
  let self := {| player := p; inst_id := next_ref w |} in
  let w' := world_of (constructor p w) in
  listeners (context w') =
    listeners (context w) ++
    [(SESSION_STATE_CHANGED, SessionListener self);
     (CAST_STATE_CHANGED, CastListener self)]
  /\ disposeHooks (host w') = disposeHooks (host w) ++ [(p, self)].
Proof.
  intros L self w'. subst w'.
  rewrite (constructor_world_of p w L). fold self.
  destruct (announced_registry self w L) as [R D].
  destruct (_onSessionStateChange_registry self
              (session_event (sessionState (context w))) (announced self w))
    as [C2 D2].
  destruct (_onSessionStateChange self _ (announced self w)) as [[] w2|e w2];
    cbn [world_of throws] in *.
  - destruct (acquire_handles_registry w2) as [C3 D3].
    now rewrite C3, D3, C2, D2.
  - now rewrite C2, D2.
Qed.

Lemma listeners_kept (o : Op) (w : World) (x : CastContextEventType * Listener) :
  (forall p, o <> PlayerDispose p) ->
  In x (listeners (context w)) ->
  In x (listeners (context (world_of (run o w)))).
Proof.
  intros N I. pose proof (run_registry o w) as F. cbv zeta in F.
  destruct o; try (destruct F as [El _]; now rewrite El).
  - destruct F as [[El _] | [El _]]; rewrite El; [exact I|].
    apply in_or_app. now left.
  - now elim (N p).
Qed.

(** X9: the registry stays in order, and only a disposal unregisters.  The
    registry is in order when the class has just been loaded, and every
    operation and every sequence of operations keeps it so.  With the SDK
    loaded a construction registers its two listeners on the cast context
    and a ['dispose'] handler on its own player, also when it ends in an
    exception.  A listener that is registered stays registered through
    every operation that is not a disposal. *)
Theorem registry_stays_in_order :
  (forall e, well_registered (initial e))
  /\ (forall o w, well_registered w -> well_registered (world_of (run o w)))
  /\ (forall os w, well_registered w -> well_registered (run_all os w))
  /\ (forall p w,
        loaded w ->
        let self := {| player := p; inst_id := next_ref w |} in
        let w' := world_of (run (New p) w) in
        In (SESSION_STATE_CHANGED, SessionListener self) (listeners (context w'))
        /\ In (CAST_STATE_CHANGED, CastListener self) (listeners (context w'))
        /\ In (p, self) (disposeHooks (host w')))
  /\ (forall o w x,
        (forall p, o <> PlayerDispose p) ->
        In x (listeners (context w)) ->
        In x (listeners (context (world_of (run o w))))).
Proof.
  split; [exact well_registered_initial|].
  split; [exact well_registered_run|].
  split; [exact well_registered_run_all|].
  split; [|exact listeners_kept].
  intros p w L self w'. subst w'. cbn [run].
  assert (E : world_of ((constructor p;; ret tt) w) = world_of (constructor p w))
    by (unfold bind, ret; now destruct (constructor p w)).
  rewrite E. destruct (constructor_registers p w L) as [El Eh].
  fold self in El, Eh. rewrite El, Eh.
  repeat split; apply in_or_app; right; cbn; auto.
Qed.

Lemma registry_stays_in_order_witness :
  well_registered two_players_world /\
  well_registered (run_all [PlayerDispose 0; New 0] two_players_world) /\
  In (CAST_STATE_CHANGED, CastListener {| player := 0; inst_id := 0 |})
     (listeners (context (world_of (run (New 0) orphan_world)))) /\
  In (CAST_STATE_CHANGED, CastListener {| player := 1; inst_id := 3 |})
     (listeners (context
        (world_of (run (OnSessionStateChange me (session_event SESSION_ENDED))
                       two_players_world)))).
Proof.
  destruct registry_stays_in_order as (I & _ & A & R & K).
  split; [apply A, I|]. split; [apply A, A, I|]. split.
  - apply (R 0 orphan_world). exists 3. reflexivity.
  - apply K; [discriminate | cbn; auto 6].
Defined.

Lemma loaded_two_players : loaded two_players_world.
Proof. exists 3. reflexivity. Defined.

Lemma dispose_removes_exactly_witness :
  loaded two_players_world /\
  In (CAST_STATE_CHANGED, CastListener {| player := 1; inst_id := 3 |})
     (listeners (context (world_of (playerDispose 0 two_players_world)))) /\
  ~ In (CAST_STATE_CHANGED, CastListener {| player := 0; inst_id := 0 |})
       (listeners (context (world_of (playerDispose 0 two_players_world)))).
Proof.
  pose proof (well_registered_run_all [New 0; New 1] idle_world
                (well_registered_initial _)) as R.
  destruct (dispose_removes_exactly 0 two_players_world loaded_two_players R)
    as (_ & _ & K).
  split; [exact loaded_two_players|]. split.
  - apply K. split; [cbn; auto 6 | discriminate].
  - intros I. apply K in I. destruct I as [_ N]. now apply N.
Defined.

(** ** Without the SDK *)

Lemma isChromecastConnected_unloaded (w : World) :
  window_cast (window w) = None ->
  exists v, isChromecastConnected w = Ok v w /\ ToBoolean v = false.
Proof.
  intros H. rewrite isChromecastConnected_eq.
  destruct (isChromecastAPIAvailable_truthy w) as (a & Ea & Ha).
  rewrite Ea. eexists. split; [reflexivity|].
  destruct (ToBoolean a) eqn:T; [|exact T].
  destruct (proj1 Ha eq_refl) as [_ [r E]]. congruence.
Qed.

(** X10: where the global [cast] is not defined, every method that reads
    it throws a ReferenceError before any effect, and the others run.
    [getCastContext], the two listener helpers, both handlers,
    [_onSessionResumed], the availability notification and
    [hasAvailableDevices] throw and leave the world as it is; the
    constructor throws with the static fields, the cast context, the host
    side and the log as before; [openCastMenu] throws exactly when
    [currentSource()] is truthy and is a no-op otherwise.  The two handle
    getters, the static probes, the reload, the success handler of the
    session request and the ready callback do not throw, and
    [isChromecastConnected] answers with a falsy value. *)
Theorem methods_without_sdk (self : Instance) (w : World) :
  window_cast (window w) = None ->
  getCastContext w = Throw (ReferenceError "cast") w
  /\ _addCastContextEventListeners self w = Throw (ReferenceError "cast") w
  /\ _removeCastContextEventListeners self w = Throw (ReferenceError "cast") w
  /\ (forall event,
        _onSessionStateChange self event w = Throw (ReferenceError "cast") w)
  /\ _onSessionResumed self w = Throw (ReferenceError "cast") w
  /\ (forall event,
        _onCastStateChange self event w = Throw (ReferenceError "cast") w)
  /\ (forall v,
        _notifyPlayerOfDevicesAvailabilityChange self v w =
        Throw (ReferenceError "cast") w)
  /\ (forall v, hasAvailableDevices self v w = Throw (ReferenceError "cast") w)
  /\ (exists w',
        constructor (player self) w = Throw (ReferenceError "cast") w'
        /\ statics w' = statics w /\ context w' = context w
        /\ host w' = host w /\ calls w' = calls w)
  /\ openCastMenu self w =
       (if ToBoolean (currentSource (players (host w) (player self)))
        then Throw (ReferenceError "cast") w
        else Ok tt w)
  /\ getRemotePlayer self w = Ok (remotePlayer (statics w)) w
  /\ getRemotePlayerController self w = Ok (remotePlayerController (statics w)) w
  /\ (exists v, isChromecastAPIAvailable w = Ok v w /\ ToBoolean v = false)
  /\ (exists v, isChromecastConnected w = Ok v w /\ ToBoolean v = false)
  /\ (forall t pl, throws (_reloadTech self t pl w) = false)
  /\ (forall ms, throws (_reloadTechWithSources self ms w) = false)
  /\ throws (onSessionSuccess self w) = false
  /\ (forall fn, throws (ready_callback (player self) fn w) = false).
Proof.
  intros H.
  assert (HA : forall v, hasAvailableDevices self v w = Throw (ReferenceError "cast") w).
  { intros v. unfold hasAvailableDevices.
    destruct (ToBoolean v); exec_with H; reflexivity. }
  assert (HN : forall v, _notifyPlayerOfDevicesAvailabilityChange self v w =
                         Throw (ReferenceError "cast") w).
  { intros v. unfold _notifyPlayerOfDevicesAvailabilityChange, bind.
    now rewrite HA. }
  split; [unfold getCastContext; exec_with H; reflexivity|].
  split; [unfold _addCastContextEventListeners; exec_with H; reflexivity|].
  split; [unfold _removeCastContextEventListeners; exec_with H; reflexivity|].
  split; [intros event; now apply _onSessionStateChange_unloaded|].
  split; [unfold _onSessionResumed; exec_with H; reflexivity|].
  split; [intros event; apply HN|].
  split; [exact HN|]. split; [exact HA|].
  split.
  { rewrite constructor_unloaded by exact H. eexists. repeat split. }
  split.
  { unfold openCastMenu. exec.
    destruct (ToBoolean (currentSource (players (host w) (player self))));
      exec_with H; reflexivity. }
  split; [reflexivity|]. split; [reflexivity|].
  split.
  { destruct (isChromecastAPIAvailable_truthy w) as (a & Ea & Ha).
    exists a. split; [exact Ea|].
    destruct (ToBoolean a) eqn:T; [|reflexivity].
    destruct (proj1 Ha eq_refl) as [_ [r E]]. congruence. }
  split; [now apply isChromecastConnected_unloaded|].
  split; [intros; now rewrite _reloadTech_Ok|].
  split; [intros; unfold _reloadTechWithSources; now rewrite _reloadTech_Ok|].
  split.
  { unfold onSessionSuccess. exec. unfold _reloadTech. exec. reflexivity. }
  intros fn. unfold ready_callback. exec.
  destruct (ToBoolean (wasPlaying fn)); reflexivity.
Qed.

(** ** The handles, when they are created *)

Lemma _onSessionStateChange_next_ref
    (self : Instance) (event : SessionStateEvent) (w : World) :
  next_ref (world_of (_onSessionStateChange self event w)) = next_ref w.
Proof.
  destruct (window_cast (window w)) eqn:H.
  - rewrite _onSessionStateChange_loaded by (now exists r).
    destruct (strict_eq _ _); [now rewrite _reloadTech_Ok|].
    destruct (strict_eq _ _); [|reflexivity].
    unfold resumed.
    destruct (currentSession (context w)) as [session|]; [|reflexivity].
    destruct (getMediaSession session) as [ms|];
      [destruct (ToBoolean (media ms))|]; now rewrite _reloadTech_Ok.
  - now rewrite _onSessionStateChange_unloaded.
Qed.

Lemma handled_not_new (self : Instance) (event : SessionStateEvent) (w : World) :
  filter is_new (handled self event w) = [].
Proof.
  unfold handled, reload_calls.
  destruct (window_cast (window w)); [|reflexivity].
  destruct (strict_eq _ _); [reflexivity|].
  destruct (strict_eq _ _); [|reflexivity].
  now destruct (currentSession (context w)).
Qed.

(** X11: a construction that succeeds creates a handle exactly when the
    class has none.  With both handles there, both are kept and nothing is
    constructed; with the remote player alone, a controller is constructed
    on that remote player; with neither, a remote player and then a
    controller on it are constructed, two distinct fresh objects; the
    static fields hold what was kept or constructed. *)
Theorem handles_created_when_missing
    (p : player_id) (w w' : World) (s : Instance) :
  loaded w ->
  constructor p w = Ok s w' ->
  let rp := remotePlayer (statics w) in
  let rc := remotePlayerController (statics w) in
  let rp' := remotePlayer (statics w') in
  let rc' := remotePlayerController (statics w') in
  exists created,
    filter is_new (calls w') = filter is_new (calls w) ++ created /\
    match ToBoolean rp, ToBoolean rc with
    | true, true => created = [] /\ rp' = rp /\ rc' = rc
    | true, false =>
        exists r2, created = [NewRemotePlayerController r2 rp] /\
                   rp' = rp /\ rc' = VObj r2
    | false, true =>
        exists r1, created = [NewRemotePlayer r1] /\
                   rp' = VObj r1 /\ rc' = rc
    | false, false =>
        exists r1 r2,
          r1 <> r2 /\
          created = [NewRemotePlayer r1; NewRemotePlayerController r2 (VObj r1)] /\
          rp' = VObj r1 /\ rc' = VObj r2
    end.
Proof.
  intros L E rp rc rp' rc'.
  destruct (constructor_Ok_inv p w w' s L E) as (_ & w2 & E2 & E3).
  destruct (announced_loaded s w L) as (W & St & _ & C).
  pose proof (_onSessionStateChange_window s
                (session_event (sessionState (context w))) (announced s w)) as W2.
  pose proof (_onSessionStateChange_delta s
                (session_event (sessionState (context w))) (announced s w)) as D.
  destruct (_onSessionStateChange_handles s
              (session_event (sessionState (context w))) (announced s w))
    as [P K].
  rewrite E2 in W2, D, P, K. cbn [world_of] in *.
  assert (L2 : loaded w2) by (unfold loaded in *; now rewrite W2, W).
  destruct (acquire_handles_eq w2 L2) as (w3 & E3' & Cs & Rp & Rc).
  rewrite E3 in E3'. inversion E3'; subst w3. clear E3'.
  rewrite P, K, St in *. fold rp rc in Rp, Rc, Cs. fold rp' in Rp. fold rc' in Rc.
  assert (F : filter is_new (calls w2) = filter is_new (calls w)).
  { rewrite D, C, !filter_app, handled_not_new. cbn. now rewrite !app_nil_r. }
  rewrite Cs, !filter_app, F.
  destruct (ToBoolean rp), (ToBoolean rc); cbn [filter is_new app] in *;
    eexists; (split; [reflexivity|]); eauto.
  exists (next_ref w2), (S (next_ref w2)).
  split; [lia|]. rewrite <- Rp. auto.
Qed.

Lemma constructor_constructs_nothing
    (p : player_id) (w w' : World) (s : Instance) :
  loaded w ->
  constructor p w = Ok s w' ->
  ToBoolean (remotePlayer (statics w)) = true ->
  ToBoolean (remotePlayerController (statics w)) = true ->
  filter is_new (calls w') = filter is_new (calls w).
Proof.
  intros L E T1 T2.
  destruct (constructor_Ok_inv p w w' s L E) as (_ & w2 & E2 & E3).
  destruct (announced_loaded s w L) as (W & St & _ & C).
  pose proof (_onSessionStateChange_window s
                (session_event (sessionState (context w))) (announced s w)) as W2.
  pose proof (_onSessionStateChange_delta s
                (session_event (sessionState (context w))) (announced s w)) as D.
  destruct (_onSessionStateChange_handles s
              (session_event (sessionState (context w))) (announced s w))
    as [P K].
  rewrite E2 in W2, D, P, K. cbn [world_of] in *.
  assert (L2 : loaded w2) by (unfold loaded in *; now rewrite W2, W).
  destruct (acquire_handles_eq w2 L2) as (w3 & E3' & Cs & _).
  rewrite E3 in E3'. inversion E3'; subst w3. clear E3'.
  rewrite P, K, St, T1, T2 in Cs. cbn [app] in Cs.
  rewrite Cs, app_nil_r, D, C, !filter_app, handled_not_new. cbn.
  now rewrite !app_nil_r.
Qed.

(** X1: two instances constructed one after the other share the remote
    player and its controller: what [getRemotePlayer()] and
    [getRemotePlayerController()] return on the second is what they
    return on the first, and the second construction constructs no
    handle: it makes no [new RemotePlayer] and no
    [new RemotePlayerController] call. *)
Theorem remote_handles_reused
    (p q : player_id) (w w1 w2 : World) (s1 s2 : Instance) :
  loaded w ->
  constructor p w = Ok s1 w1 ->
  constructor q w1 = Ok s2 w2 ->
  (exists rp rc,
     ToBoolean rp = true /\ ToBoolean rc = true /\
     getRemotePlayer s1 w1 = Ok rp w1 /\
     getRemotePlayer s2 w2 = Ok rp w2 /\
     getRemotePlayerController s1 w1 = Ok rc w1 /\
     getRemotePlayerController s2 w2 = Ok rc w2)
  /\ filter is_new (calls w2) = filter is_new (calls w1).
Proof.
  intros L E1 E2.
  destruct (constructor_handles p w w1 s1 L E1) as (L1 & T1 & T2 & _).
  destruct (constructor_handles q w1 w2 s2 L1 E2) as (_ & _ & _ & K1 & K2).
  split.
  - exists (remotePlayer (statics w1)), (remotePlayerController (statics w1)).
    unfold getRemotePlayer, getRemotePlayerController, gets.
    rewrite (K1 T1), (K2 T2). repeat split; assumption.
  - exact (constructor_constructs_nothing q w1 w2 s2 L1 E2 T1 T2).
Qed.

Lemma remote_handles_reused_witness :
  loaded idle_world /\
  exists s1 w1 s2 w2,
    constructor 0 idle_world = Ok s1 w1 /\
    constructor 1 w1 = Ok s2 w2 /\
    getRemotePlayer s2 w2 = Ok (VObj 1) w2 /\
    getRemotePlayer s1 w1 = Ok (VObj 1) w1 /\
    filter is_new (calls w2) =
      [NewRemotePlayer 1; NewRemotePlayerController 2 (VObj 1)].
Proof.
  assert (L : loaded idle_world) by (exists 3; reflexivity).
  split; [exact L|].
  destruct (constructor 0 idle_world) as [s1 w1|e w1] eqn:E1;
    [|vm_compute in E1; discriminate E1].
  destruct (constructor 1 w1) as [s2 w2|e w2] eqn:E2.
  - exists s1, w1, s2, w2.
    destruct (remote_handles_reused 0 1 idle_world w1 w2 s1 s2 L E1 E2)
      as ((rp & rc & _ & _ & G1 & G2 & _) & N).
    assert (R : rp = VObj 1).
    { vm_compute in E1. inversion E1; subst. vm_compute in G1.
      now inversion G1. }
    subst rp. repeat split; auto.
    rewrite N. vm_compute in E1. inversion E1; subst. reflexivity.
  - exfalso. vm_compute in E1. inversion E1; subst. vm_compute in E2.
    discriminate E2.
Defined.

(** ** Once connected *)

Lemma run_all_flag (os : list Op) (w : World) :
  flag w = true -> flag (run_all os w) = true.
Proof.
  revert w. induction os as [|o os IH]; intros w F; cbn [run_all]; [exact F|].
  apply IH. now rewrite run_flag_eq, F.
Qed.

(** X12: once a connect has been recorded, [isChromecastConnected()]
    follows the cast state alone, whatever happens afterwards: after any
    further operations (a SESSION_ENDED among them, or a session started
    elsewhere), with the API present, it returns [true] when the cast
    state is CONNECTED and [false] otherwise. *)
Theorem connected_follows_cast_state (o : Op) (os : list Op) (w : World) :
  connects_b o w = true ->
  api_present (run_all (o :: os) w) ->
  isChromecastConnected (run_all (o :: os) w) =
  Ok (VBool match castState (context (run_all (o :: os) w)) with
            | CONNECTED => true
            | _ => false
            end)
     (run_all (o :: os) w).
Proof.
  intros C P. cbn [run_all] in *.
  assert (F : flag (run_all os (world_of (run o w))) = true).
  { apply run_all_flag. rewrite run_flag_eq, C. apply orb_true_r. }
  set (w' := run_all os (world_of (run o w))) in *.
  rewrite isChromecastConnected_eq.
  destruct (isChromecastAPIAvailable_truthy w') as (a & Ea & Ha).
  rewrite Ea. rewrite (proj2 Ha P). unfold flag in F. rewrite F. reflexivity.
Qed.

(** ** A resumed session, through to the ready callback *)

Lemma run_ready_app (p : player_id) (q q' : list (player_id * ReadyCallback))
    (w : World) :
  run_ready p (q ++ q') w =
  match run_ready p q w with
  | Ok _ w' => run_ready p q' w'
  | Throw e w' => Throw e w'
  end.
Proof.
  revert w. induction q as [|[p' fn] q IH]; intros w; [reflexivity|].
  cbn [app run_ready]. unfold bind.
  destruct ((if Nat.eqb p' p then ready_callback p fn else ret tt) w);
    [apply IH | reflexivity].
Qed.

Lemma run_ready_others (p : player_id) (q : list (player_id * ReadyCallback))
    (w : World) :
  (forall fn, ~ In (p, fn) q) ->
  run_ready p q w = Ok tt w /\
  filter (fun e => negb (Nat.eqb (fst e) p)) q = q.
Proof.
  revert w. induction q as [|[p' fn] q IH]; intros w N; [now split|].
  cbn [run_ready filter fst]. unfold bind.
  destruct (Nat.eqb p' p) eqn:E.
  - apply Nat.eqb_eq in E. subst. exfalso. apply (N fn). now left.
  - exec. destruct (IH w) as [R F].
    + intros fn' I. apply (N fn'). now right.
    + rewrite R. cbn [negb]. now rewrite F.
Qed.

(** The player becomes ready with one callback of its own waiting, the
    last registered. *)
Lemma playerReady_last (p : player_id) (fn : ReadyCallback)
    (q : list (player_id * ReadyCallback)) (w : World) :
  readyQueue (host w) = q ++ [(p, fn)] ->
  (forall fn', ~ In (p, fn') q) ->
  playerReady p w =
  Ok tt
     (with_calls
        (calls w ++
         [if ToBoolean (wasPlaying fn) then Play p else Pause p;
          SetCurrentTime p (js_or (captured_time fn) (VNum (Num 0%Q)))])
        (with_host {| players := players (host w);
                      readyQueue := q;
                      disposeHooks := disposeHooks (host w) |} w)).
Proof.
  intros Q N. unfold playerReady. exec. rewrite Q, filter_app, run_ready_app.
  match goal with |- context [run_ready p q ?w1] =>
    destruct (run_ready_others p q w1 N) as [R F] end.
  rewrite R.
  cbn [filter fst run_ready]. rewrite Nat.eqb_refl.
  cbn [negb]. rewrite app_nil_r. unfold ready_callback. exec.
  destruct (ToBoolean (wasPlaying fn)); exec;
    unfold with_calls, with_host; cbn; rewrite <- app_assoc; cbn;
    repeat f_equal; exact F.
Qed.

(** X13: a session resumed with a media item, followed by the player
    becoming ready, with no callback of that player waiting before: the
    calls are 'chromecastConnected', [src], [ready], then [play()] if the
    session's [playerState] is 'PLAYING' or the host was not paused and
    [pause()] otherwise, then a seek to the session's [currentTime], or to
    the host's own time when that is falsy, or to 0 when both are.  The
    callback is consumed and the flag is set. *)
Theorem resumed_session_restored
    (self : Instance) (w : World) (session : CastSession) (ms : MediaStatus) :
  loaded w ->
  currentSession (context w) = Some session ->
  getMediaSession session = Some ms ->
  ToBoolean (media ms) = true ->
  (forall fn, ~ In (player self, fn) (readyQueue (host w))) ->
  let p := player self in
  let h := players (host w) p in
  let playing := strict_eq (playerState ms) (VStr "PLAYING") || negb (paused h) in
  let time := js_or (js_or (ms_currentTime ms) (currentTime h)) (VNum (Num 0%Q)) in
  let w' := run_all [OnSessionStateChange self (session_event SESSION_RESUMED);
                     PlayerReady p] w in
  calls w' =
    calls w ++ [Trigger p "chromecastConnected";
                Src p (currentSources h);
                Ready p;
                if playing then Play p else Pause p;
                SetCurrentTime p time]
  /\ readyQueue (host w') = readyQueue (host w)
  /\ flag w' = true.
Proof.
  intros L Hs Hm Hmedia N. cbv zeta.
  cbn [run_all run].
  rewrite (_onSessionStateChange_loaded self _ w L).
  cbn [session_event ev_sessionState].
  change (strict_eq (SessionState_value SESSION_RESUMED)
            (SessionState_value SESSION_ENDED)) with false.
  change (strict_eq (SessionState_value SESSION_RESUMED)
            (SessionState_value SESSION_RESUMED)) with true.
  cbv iota. unfold resumed. rewrite Hs, Hm, Hmedia, _reloadTech_Ok.
  cbn [world_of]. unfold connected.
  erewrite playerReady_last; [|exec; reflexivity|exact N].
  exec. rewrite <- !app_assoc. unfold js_or at 1, js_not. cbn [ToBoolean].
  repeat split.
  destruct (strict_eq (playerState ms) (VStr "PLAYING")); reflexivity.
Qed.

(** ** Examples of the further properties *)

Lemma methods_without_sdk_witness :
  window_cast (window no_api_world) = None /\
  getCastContext no_api_world = Throw (ReferenceError "cast") no_api_world /\
  openCastMenu me no_api_world = Throw (ReferenceError "cast") no_api_world /\
  getRemotePlayer me no_api_world = Ok VUndefined no_api_world.
Proof.
  destruct (methods_without_sdk me no_api_world eq_refl)
    as (G & _ & _ & _ & _ & _ & _ & _ & _ & O & R & _).
  split; [reflexivity|]. split; [exact G|]. split; [exact O | exact R].
Defined.

Lemma handles_created_when_missing_witness :
  loaded idle_world /\
  exists s w',
    constructor 0 idle_world = Ok s w' /\
    exists r1 r2,
      r1 <> r2 /\
      filter is_new (calls w') =
        [NewRemotePlayer r1; NewRemotePlayerController r2 (VObj r1)] /\
      remotePlayer (statics w') = VObj r1 /\
      remotePlayerController (statics w') = VObj r2.
Proof.
  assert (L : loaded idle_world) by (exists 3; reflexivity).
  split; [exact L|].
  destruct (constructor 0 idle_world) as [s w'|e w'] eqn:E;
    [|vm_compute in E; discriminate E].
  exists s, w'. split; [reflexivity|].
  destruct (handles_created_when_missing 0 idle_world w' s L E)
    as (created & F & r1 & r2 & N & C & P1 & P2).
  exists r1, r2. rewrite F, C. auto.
Defined.

Lemma connected_follows_cast_state_witness :
  connects_b (SettleRequest Fulfilled) requested_world = true /\
  isChromecastConnected
    (run_all [SettleRequest Fulfilled;
              OnSessionStateChange me (session_event SESSION_ENDED);
              External foreign_environment] requested_world) =
  Ok (VBool true)
     (run_all [SettleRequest Fulfilled;
               OnSessionStateChange me (session_event SESSION_ENDED);
               External foreign_environment] requested_world).
Proof.
  split; [reflexivity|].
  apply (connected_follows_cast_state (SettleRequest Fulfilled)
           [OnSessionStateChange me (session_event SESSION_ENDED);
            External foreign_environment] requested_world eq_refl).
  split; [exists {| chrome_obj := 1; chrome_cast := Some 2 |}, 2 | exists 3];
    split; reflexivity.
Defined.

Lemma resumed_session_restored_witness :
  loaded resumed_world /\
  calls (run_all [OnSessionStateChange me (session_event SESSION_RESUMED);
                  PlayerReady 0] resumed_world) =
    [Trigger 0 "chromecastConnected"; Src 0 [a_source]; Ready 0;
     Play 0; SetCurrentTime 0 (VNum (Num 42%Q))].
Proof.
  assert (L : loaded resumed_world) by (exists 3; reflexivity).
  split; [exact L|].
  refine (proj1 (resumed_session_restored me resumed_world
                   {| getMediaSession := Some playing_at_42 |} playing_at_42
                   L eq_refl eq_refl eq_refl _)).
  intros fn [].
Defined.

(** ** A construction that fails on resume *)

(** X14: a construction that finds SESSION_RESUMED as the current session
    state while there is no current session ends in a TypeError after it
    has registered its two listeners and its ['dispose'] handler and
    triggered the availability event, and before it touches the static
    fields: the flag and the two handles are as before, and no handle is
    constructed. *)
Theorem construction_fails_half_way (p : player_id) (w : World) :
  loaded w ->
  sessionState (context w) = SESSION_RESUMED ->
  currentSession (context w) = None ->
  let self := {| player := p; inst_id := next_ref w |} in
  exists w',
    constructor p w = Throw (TypeError "castSession is null") w'
    /\ listeners (context w') =
         listeners (context w) ++
         [(SESSION_STATE_CHANGED, SessionListener self);
          (CAST_STATE_CHANGED, CastListener self)]
    /\ disposeHooks (host w') = disposeHooks (host w) ++ [(p, self)]
    /\ calls w' =
         calls w ++
         [AddEventListener SESSION_STATE_CHANGED (SessionListener self);
          AddEventListener CAST_STATE_CHANGED (CastListener self);
          On p "dispose";
          Trigger p (availability_event (devices_in (castState (context w))))]
    /\ statics w' = statics w.
Proof.
  intros L Es En self. exists (announced self w).
  destruct (announced_loaded self w L) as (W & St & C & Cl).
  destruct (announced_registry self w L) as [R D].
  split; [|now repeat split].
  rewrite (constructor_loaded p w L). fold self.
  rewrite _onSessionStateChange_loaded
    by (unfold loaded in *; now rewrite W).
  rewrite Es. cbn [session_event ev_sessionState].
  change (strict_eq (SessionState_value SESSION_RESUMED)
            (SessionState_value SESSION_ENDED)) with false.
  change (strict_eq (SessionState_value SESSION_RESUMED)
            (SessionState_value SESSION_RESUMED)) with true.
  cbv iota. unfold resumed. now rewrite C, En.
Qed.

Lemma construction_fails_half_way_witness :
  loaded orphan_world /\
  exists w',
    constructor 0 orphan_world = Throw (TypeError "castSession is null") w' /\
    length (listeners (context w')) = 2 /\
    statics w' = class_init.
Proof.
  assert (L : loaded orphan_world) by (exists 3; reflexivity).
  split; [exact L|].
  destruct (construction_fails_half_way 0 orphan_world L eq_refl eq_refl)
    as (w' & E & Ls & _ & _ & St).
  exists w'. split; [exact E|]. split; [now rewrite Ls | exact St].
Defined.
